(** * Firmament: the platform-independent coordinator

    A shallow embedding of [src/engine/coordinator.cc]: the resource
    registry ([associated_resources_]), the two message handlers, the
    dispatcher [HandleIncomingMessage], the receive completion
    [HandleRecv], the main loop [Run] with [Shutdown] and [HandleSignal],
    and the job-submission stub [SubmitJob].

    The C++ methods mutate the coordinator object, write log lines, read
    the clock and call the message adapter.  They are embedded as
    computations in a state monad over a record holding exactly those
    pieces; a failed [CHECK] or a [LOG(FATAL)] aborts the computation. *)

From Stdlib Require Import ZArith NArith String Ascii List Lia.
From stdpp Require Import base option list gmap strings.

Local Open Scope Z_scope.

(** ** What the file takes from headers and libraries

    [coordinator.cc] uses types and functions declared outside it: the
    identity type [ResourceID_t] (a [boost::uuids::uuid]), the protobuf
    messages [ResourceDescriptor] and [JobDescriptor], the conversion
    [boost::uuids::string_generator] from the string form of an identity,
    the clock behind [GetCurrentTimestamp], and the command-line flag
    [FLAGS_listen_uri].  They are gathered in one interface; every
    definition and theorem below is parametric in it.

    [string_generator] gives the identity that the C++ call operator
    returns for a string in the text form of a uuid.  On any other
    string the C++ call throws; the handlers embedded first do not have
    that path, and module [Exn] below embeds them again with it.
    [system_clock n] is the value the [n]-th call of
    [GetCurrentTimestamp] returns (a [uint64_t]; the coordinator stores
    it and prints it, and never computes with it).

    The constructor (platform selection, signal registration, topology
    detection) and [GenerateUUID] are not embedded: no statement below
    depends on them. *)
Class Externals := {
  ResourceID_t : Type;
  ResourceID_t_eq_dec :: EqDecision ResourceID_t;
  ResourceID_t_countable :: Countable ResourceID_t;
  ResourceDescriptor : Type;
  JobDescriptor : Type;
  DebugString : JobDescriptor -> string;
  string_generator : string -> ResourceID_t;
  system_clock : nat -> Z;
  FLAGS_listen_uri : string
}.

(** ** Messages *)

(** [messages/heartbeat_message.pb.h]: the accessor used is [uuid()]. *)
Module HeartbeatMessage.
Record t := mk { uuid : string }.
End HeartbeatMessage.

(** [messages/registration_message.pb.h]: accessors [uuid()] and
    [res_desc()]. *)
Module RegistrationMessage.
Record t `{Externals} := mk { uuid : string; res_desc : ResourceDescriptor }.
End RegistrationMessage.

(** [BaseMessage] is a protobuf message with extensions.  [HasExtension]
    is a presence test per extension, so the two extensions this file
    probes are two independent optional fields; [other_extns] stands for
    the extensions (by field number) that this file never looks at. *)
Record BaseMessage `{Externals} := {
  register_extn : option RegistrationMessage.t;
  heartbeat_extn : option HeartbeatMessage.t;
  other_extns : list (N * string)
}.

(** [Envelope<BaseMessage>]: [data()] gives the message it wraps. *)
Record Envelope `{Externals} := { data : BaseMessage }.

(** [boost::system::error_code]: it converts to [true] exactly when its
    value is not zero. *)
Record error_code := { value : Z; message : string }.

Definition is_error (error : error_code) : bool := negb (value error =? 0).

(** ** Log lines and adapter calls *)

Inductive Severity := INFO | WARNING | FATAL | VLOG (level : nat).

(** One constructor per log statement of the file, carrying the values
    the statement streams into the line. *)
Inductive LogLine `{Externals} :=
  | HelloFromMainLoop
  | WaitingForNextMessage
  | AsyncReceiveError (error_message : string)
  | ReceivedAsync (bytes_transferred : N) (env : Envelope)
  | HeartbeatFromUnknown (uuid : string)
  | HeartbeatFrom (uuid : string) (last_seen : Z)
  | RegisteringNewResource (uuid : string)
  | RegistrationAlreadyKnown (uuid : string)
  | NewJob (debug_string : string)
  | ShuttingDown (reason : string)
  | CheckFailed.

(** The calls the coordinator makes on [m_adapter_]. *)
Inductive AdapterCall :=
  | Listen (uri : string)
  | RegisterAsyncMessageReceiptCallback
  | AdapterAwaitNextMessage
  | StopListen.

Global Instance AdapterCall_eq_dec : EqDecision AdapterCall.
Proof. solve_decision. Defined.

(** ** The coordinator's state *)

(** Modelled from the spec: the members of the class are declared in
    [engine/coordinator.h], which is not part of the source at hand.
    The specification's Resource Registry is a mapping from identity to
    the pair of descriptor and last-seen time stamp, and
    [coordinator.cc] reads [associated_resources_] as a map to
    [pair<ResourceDescriptor, uint64_t>]; [exit_] is the static exit
    toggle, initialised to [false] in this file.  The other three fields
    record what the methods do to the world: [m_adapter_] the calls made
    on the adapter, oldest first; [log] the lines written, oldest first;
    [clock_reads] the number of calls of [GetCurrentTimestamp] so far. *)
Record Coordinator `{Externals} := {
  associated_resources_ : gmap ResourceID_t (ResourceDescriptor * Z);
  exit_ : bool;
  m_adapter_ : list AdapterCall;
  log : list (Severity * LogLine);
  clock_reads : nat
}.

Section Embedding.
Context `{E : Externals}.

Definition set_associated_resources_
    (f : gmap ResourceID_t (ResourceDescriptor * Z) ->
         gmap ResourceID_t (ResourceDescriptor * Z)) (c : Coordinator) :=
  {| associated_resources_ := f (associated_resources_ c);
     exit_ := exit_ c; m_adapter_ := m_adapter_ c; log := log c;
     clock_reads := clock_reads c |}.

Definition set_exit_ (b : bool) (c : Coordinator) :=
  {| associated_resources_ := associated_resources_ c;
     exit_ := b; m_adapter_ := m_adapter_ c; log := log c;
     clock_reads := clock_reads c |}.

Definition add_adapter_call (a : AdapterCall) (c : Coordinator) :=
  {| associated_resources_ := associated_resources_ c;
     exit_ := exit_ c; m_adapter_ := m_adapter_ c ++ [a]; log := log c;
     clock_reads := clock_reads c |}.

Definition add_log (s : Severity) (l : LogLine) (c : Coordinator) :=
  {| associated_resources_ := associated_resources_ c;
     exit_ := exit_ c; m_adapter_ := m_adapter_ c; log := log c ++ [(s, l)];
     clock_reads := clock_reads c |}.

Definition tick_clock (c : Coordinator) :=
  {| associated_resources_ := associated_resources_ c;
     exit_ := exit_ c; m_adapter_ := m_adapter_ c; log := log c;
     clock_reads := S (clock_reads c) |}.

(** The coordinator when [Run] is entered for the first time: nothing
    registered, [exit_] at its initial value [false]. *)
Definition initial : Coordinator :=
  {| associated_resources_ := ∅; exit_ := false; m_adapter_ := [];
     log := []; clock_reads := 0 |}.

(** ** The monad

    A method either returns, with a result and the new state, or the
    process aborts ([CHECK] failure, [LOG(FATAL)]), or it is still
    blocked in the adapter's wait when the events scheduled for the
    run are used up. *)
Inductive Outcome (A : Type) :=
  | Returns (a : A) (c : Coordinator)
  | Aborts (c : Coordinator)
  | Blocks (c : Coordinator).
Global Arguments Returns {A} a c.
Global Arguments Aborts {A} c.
Global Arguments Blocks {A} c.

Definition M (A : Type) := Coordinator -> Outcome A.

Definition ret {A} (a : A) : M A := fun c => Returns a c.

Definition bind {A B} (m : M A) (k : A -> M B) : M B :=
  fun c => match m c with
           | Returns a c' => k a c'
           | Aborts c' => Aborts c'
           | Blocks c' => Blocks c'
           end.

Definition modify (f : Coordinator -> Coordinator) : M unit :=
  fun c => Returns tt (f c).

Definition get {A} (f : Coordinator -> A) : M A :=
  fun c => Returns (f c) c.
End Embedding.

Declare Scope coord_scope.
Delimit Scope coord_scope with coord.
Notation "x <- m ;; k" := (bind m (fun x => k))
  (at level 100, m at next level, right associativity) : coord_scope.
Notation "m ;; k" := (bind m (fun _ => k))
  (at level 100, right associativity) : coord_scope.
Local Open Scope coord_scope.

Section Methods.
Context `{E : Externals}.

(** *** Library calls *)

(** [LOG(severity) << ...]; a [FATAL] line terminates the process. *)
Definition LOG (s : Severity) (l : LogLine) : M unit :=
  fun c => match s with
           | FATAL => Aborts (add_log s l c)
           | _ => Returns tt (add_log s l c)
           end.

(** [CHECK(condition)]: fatal when the condition is false. *)
Definition CHECK (condition : bool) : M unit :=
  if condition then ret tt else LOG FATAL CheckFailed.

(** [GetCurrentTimestamp()] of [misc/utils.h]. *)
Definition GetCurrentTimestamp : M Z :=
  fun c => Returns (system_clock (clock_reads c)) (tick_clock c).

(** Modelled from the spec: [FindOrNull] of [misc/map-util.h], which is
    not part of the source at hand.  It is the registry's [Lookup]: a
    reference to the record stored under the key, or null. *)
Definition FindOrNull (key : ResourceID_t) : M (option (ResourceDescriptor * Z)) :=
  get (fun c => associated_resources_ c !! key).

(** Modelled from the spec: [InsertIfNotPresent] of [misc/map-util.h].
    It stores the value under the key when the key is free and says
    whether it did. *)
Definition InsertIfNotPresent (key : ResourceID_t)
    (v : ResourceDescriptor * Z) : M bool :=
  fun c => match associated_resources_ c !! key with
           | Some _ => Returns false c
           | None => Returns true (set_associated_resources_ (insert key v) c)
           end.

(** [rdp->second = now] for the pointer [rdp] that [FindOrNull]
    returned for [key]: the write goes to the record inside the map. *)
Definition store_second (key : ResourceID_t) (now : Z) : M unit :=
  modify (set_associated_resources_ (alter (fun p => (p.1, now)) key)).

(** *** Handlers *)

Definition HandleHeartbeat (msg : HeartbeatMessage.t) : M unit :=
  let uuid := string_generator (HeartbeatMessage.uuid msg) in
  rdp <- FindOrNull uuid;;
  match rdp with
  | None => LOG WARNING (HeartbeatFromUnknown (HeartbeatMessage.uuid msg))
  | Some p =>
      LOG INFO (HeartbeatFrom (HeartbeatMessage.uuid msg) p.2);;
      now <- GetCurrentTimestamp;;
      store_second uuid now
  end.

Definition HandleRegistrationRequest (msg : RegistrationMessage.t) : M unit :=
  let uuid := string_generator (RegistrationMessage.uuid msg) in
  rdp <- FindOrNull uuid;;
  match rdp with
  | None =>
      LOG INFO (RegisteringNewResource (RegistrationMessage.uuid msg));;
      now <- GetCurrentTimestamp;;
      inserted <- InsertIfNotPresent uuid (RegistrationMessage.res_desc msg, now);;
      CHECK inserted
  | Some _ =>
      LOG INFO (RegistrationAlreadyKnown (RegistrationMessage.uuid msg));;
      now <- GetCurrentTimestamp;;
      store_second uuid now
  end.

Definition HandleIncomingMessage (bm : BaseMessage) : M unit :=
  match register_extn bm with
  | Some msg => HandleRegistrationRequest msg
  | None => ret tt
  end;;
  match heartbeat_extn bm with
  | Some msg => HandleHeartbeat msg
  | None => ret tt
  end.

(** [delete env] frees the envelope; memory is not part of the state. *)
Definition HandleRecv (error : error_code) (bytes_transferred : N)
    (env : Envelope) : M unit :=
  if is_error error then
    LOG WARNING (AsyncReceiveError (message error))
  else
    LOG (VLOG 2) (ReceivedAsync bytes_transferred env);;
    HandleIncomingMessage (data env).

Definition HandleSignal : M unit := modify (set_exit_ true).

Definition SubmitJob (job_descriptor : JobDescriptor) : M string :=
  LOG INFO (NewJob (DebugString job_descriptor));;
  ret "test1234"%string.

Definition Shutdown (reason : string) : M unit :=
  LOG INFO (ShuttingDown reason);;
  modify (add_adapter_call StopListen);;
  modify (set_exit_ true).
End Methods.


(** ** The main loop

    While the coordinator waits, the world acts on it: the adapter
    delivers a decoded message to the registered callback
    ([HandleIncomingMessage]) or completes an asynchronous receive
    ([HandleRecv]), a signal runs [HandleSignal], and a client of the
    class calls [Shutdown] or [SubmitJob]. *)
Inductive Event `{Externals} :=
  | MessageDelivered (bm : BaseMessage)
  | ReceiveCompleted (error : error_code) (bytes_transferred : N) (env : Envelope)
  | SignalRaised
  | ShutdownCalled (reason : string)
  | JobSubmitted (job_descriptor : JobDescriptor).

Definition sets_exit `{Externals} (e : Event) : bool :=
  match e with
  | SignalRaised | ShutdownCalled _ => true
  | _ => false
  end.

Definition is_shutdown_call `{Externals} (e : Event) : bool :=
  match e with
  | ShutdownCalled _ => true
  | _ => false
  end.

(** How often [a] has been called on the adapter. *)
Definition adapter_calls `{Externals} (a : AdapterCall) (c : Coordinator) : nat :=
  count_occ AdapterCall_eq_dec (m_adapter_ c) a.

Section Loop.
Context `{E : Externals}.

Definition handle_event (e : Event) : M unit :=
  match e with
  | MessageDelivered bm => HandleIncomingMessage bm
  | ReceiveCompleted error bytes_transferred env =>
      HandleRecv error bytes_transferred env
  | SignalRaised => HandleSignal
  | ShutdownCalled reason => Shutdown reason
  | JobSubmitted job_descriptor => SubmitJob job_descriptor;; ret tt
  end.

Fixpoint handle_events (events : list Event) : M unit :=
  match events with
  | [] => ret tt
  | e :: rest => handle_event e;; handle_events rest
  end.

(** The part of [Coordinator::AwaitNextMessage] up to the point where
    the caller is parked in the adapter. *)
Definition enter_wait : M unit :=
  LOG (VLOG 2) WaitingForNextMessage;;
  modify (add_adapter_call AdapterAwaitNextMessage).

(** [Coordinator::AwaitNextMessage]; [during] is what happens to the
    coordinator between this call and the next test of [exit_].  The
    one-second sleep that ends the method is part of that interval. *)
Definition AwaitNextMessage (during : list Event) : M unit :=
  enter_wait;;
  handle_events during.

(** [while (!exit_) { ... }]; [schedule] lists, wait by wait, the events
    of the run.  When the schedule is used up while [exit_] is still
    false, the coordinator stays parked in the adapter. *)
Fixpoint main_loop (schedule : list (list Event)) (c : Coordinator) : Outcome unit :=
  if exit_ c then Returns tt c
  else
    match schedule with
    | [] => (LOG (VLOG 2) HelloFromMainLoop;; enter_wait;; Blocks) c
    | during :: later =>
        (LOG (VLOG 2) HelloFromMainLoop;;
         AwaitNextMessage during;;
         main_loop later) c
    end.

Definition Run (schedule : list (list Event)) : M unit :=
  modify (add_adapter_call (Listen FLAGS_listen_uri));;
  modify (add_adapter_call RegisterAsyncMessageReceiptCallback);;
  main_loop schedule;;
  Shutdown "dropped out of main loop".

(** The waits of a run taken one after the other with no test of
    [exit_] in between: what the loop does on the waits it enters. *)
Fixpoint waits (cycles : list (list Event)) : M unit :=
  match cycles with
  | [] => ret tt
  | during :: later =>
      LOG (VLOG 2) HelloFromMainLoop;; AwaitNextMessage during;; waits later
  end.

(** The log lines a handler can write for a message. *)
Definition registration_line (msg : RegistrationMessage.t)
    (l : Severity * LogLine) : Prop :=
  l = (INFO, RegisteringNewResource (RegistrationMessage.uuid msg)) \/
  l = (INFO, RegistrationAlreadyKnown (RegistrationMessage.uuid msg)).

Definition heartbeat_line (msg : HeartbeatMessage.t)
    (l : Severity * LogLine) : Prop :=
  l = (WARNING, HeartbeatFromUnknown (HeartbeatMessage.uuid msg)) \/
  exists last_seen, l = (INFO, HeartbeatFrom (HeartbeatMessage.uuid msg) last_seen).
End Loop.

(** ** A concrete instance

    Identities as 128-bit numbers read from their hexadecimal string
    form (dashes and braces are skipped), descriptors as lists of named
    quantities, job descriptors as their debug strings, and a clock that
    shows 100, 150 and 300 on its first three readings. *)
Module Demo.

Definition hex_digit (a : ascii) : option N :=
  let n := N_of_ascii a in
  if ((48 <=? n) && (n <=? 57))%N then Some (n - 48)%N
  else if ((97 <=? n) && (n <=? 102))%N then Some (n - 87)%N
  else if ((65 <=? n) && (n <=? 70))%N then Some (n - 55)%N
  else None.

Fixpoint hex_value (s : string) (acc : N) : N :=
  match s with
  | EmptyString => acc
  | String a rest =>
      match hex_digit a with
      | Some d => hex_value rest (16 * acc + d)%N
      | None => hex_value rest acc
      end
  end.

Definition externals : Externals :=
  {| ResourceID_t := N;
     ResourceDescriptor := list (string * N);
     JobDescriptor := string;
     DebugString := fun s => s;
     string_generator := fun s => hex_value s 0%N;
     system_clock := fun n => nth n [100; 150; 300] 0;
     FLAGS_listen_uri := "tcp://localhost:9998" |}.

Definition uuid_A : string := "00000000-0000-0000-0000-00000000000a".
Definition uuid_B : string := "00000000-0000-0000-0000-00000000000b".

Definition register_A_cpu4 : @RegistrationMessage.t externals :=
  RegistrationMessage.mk externals uuid_A [("cpu"%string, 4%N)].

Definition register_A_cpu8 : @RegistrationMessage.t externals :=
  RegistrationMessage.mk externals uuid_A [("cpu"%string, 8%N)].

Definition heartbeat_A : HeartbeatMessage.t := HeartbeatMessage.mk uuid_A.
Definition heartbeat_B : HeartbeatMessage.t := HeartbeatMessage.mk uuid_B.

Definition id_A : N := hex_value uuid_A 0%N.
Definition id_B : N := hex_value uuid_B 0%N.

(** The coordinator after [register_A_cpu4] has been handled, at time
    100, by a coordinator that has just started. *)
Definition with_A : @Coordinator externals :=
  match HandleRegistrationRequest register_A_cpu4 initial with
  | Returns _ c | Aborts c | Blocks c => c
  end.

Definition both_kinds : @BaseMessage externals :=
  {| register_extn := Some register_A_cpu4;
     heartbeat_extn := Some heartbeat_A;
     other_extns := [] |}.

Definition unknown_kind : @BaseMessage externals :=
  {| register_extn := None; heartbeat_extn := None;
     other_extns := [(1000%N, "payload"%string)] |}.

Definition a_job : @JobDescriptor externals := "job"%string.

Definition connection_reset : error_code :=
  {| value := 104; message := "Connection reset by peer" |}.

End Demo.

(** ** Vocabulary of the statements *)

Section Vocabulary.
Context `{E : Externals}.

Implicit Types (c : Coordinator) (id : ResourceID_t).

(** Every record of [c] is still there in [c'], with the descriptor it
    had; only its time stamp may differ. *)
Definition keeps_records c c' : Prop :=
  forall id d t,
    associated_resources_ c !! id = Some (d, t) ->
    exists t', associated_resources_ c' !! id = Some (d, t').

(** A step that touches neither [exit_] nor the adapter. *)
Definition quiet c c' : Prop :=
  keeps_records c c' /\ exit_ c' = exit_ c /\ m_adapter_ c' = m_adapter_ c.

(** The number of [Shutdown] calls among the events. *)
Definition shutdown_calls (events : list Event) : nat :=
  length (List.filter is_shutdown_call events).

(** The adapter calls that the waits [cycles] produce. *)
Definition wait_trace (cycles : list (list Event)) : list AdapterCall :=
  flat_map (fun during => AdapterAwaitNextMessage ::
                          repeat StopListen (shutdown_calls during)) cycles.

(** [Run] with its loop unrolled over the waits [cycles]. *)
Definition run_through (cycles : list (list Event)) : M unit :=
  modify (add_adapter_call (Listen FLAGS_listen_uri));;
  modify (add_adapter_call RegisterAsyncMessageReceiptCallback);;
  waits cycles;;
  Shutdown "dropped out of main loop".

(** The identities for which the message carries a registration. *)
Definition registered_by_message (bm : BaseMessage) : gset ResourceID_t :=
  match register_extn bm with
  | Some msg => {[ string_generator (RegistrationMessage.uuid msg) ]}
  | None => ∅
  end.

(** The identities for which the event makes the coordinator handle a
    registration. *)
Definition registered_by (e : Event) : gset ResourceID_t :=
  match e with
  | MessageDelivered bm => registered_by_message bm
  | ReceiveCompleted error _ env =>
      if is_error error then ∅ else registered_by_message (data env)
  | _ => ∅
  end.

Definition registered_ids (events : list Event) : gset ResourceID_t :=
  ⋃ (registered_by <$> events).
End Vocabulary.

(** ** Further vocabulary *)

Section Accounting.
Context `{E : Externals}.

Implicit Types (c : Coordinator) (id : ResourceID_t).

(** The number of extensions, among the two the dispatcher probes, that
    the message carries. *)
Definition payloads (bm : BaseMessage) : nat :=
  match register_extn bm with Some _ => 1 | None => 0 end +
  match heartbeat_extn bm with Some _ => 1 | None => 0 end.

(** The coordinator [c] with [lines] as its log. *)
Definition with_log (lines : list (Severity * LogLine)) c : Coordinator :=
  {| associated_resources_ := associated_resources_ c;
     exit_ := exit_ c; m_adapter_ := m_adapter_ c; log := lines;
     clock_reads := clock_reads c |}.

(** Every last-seen time in the registry is a value that an earlier call
    of [GetCurrentTimestamp] returned. *)
Definition stamps_from_clock c : Prop :=
  forall id d t,
    associated_resources_ c !! id = Some (d, t) ->
    exists n, (n < clock_reads c)%nat /\ t = system_clock n.

(** Between [c] and [c'] the clock has only been read forward, and every
    record of [c'] is a record of [c] or carries a reading taken in
    between. *)
Definition stamped_since c c' : Prop :=
  (clock_reads c <= clock_reads c')%nat /\
  forall id d t,
    associated_resources_ c' !! id = Some (d, t) ->
    associated_resources_ c !! id = Some (d, t) \/
    exists n, (clock_reads c <= n < clock_reads c')%nat /\ t = system_clock n.

(** Two coordinators that agree on what the handlers read: the
    registry, the clock and the exit toggle.  Their logs and their
    adapter traces may differ. *)
Definition same_core c1 c2 : Prop :=
  associated_resources_ c1 = associated_resources_ c2 /\
  clock_reads c1 = clock_reads c2 /\
  exit_ c1 = exit_ c2.

(** A clock that never runs backwards. *)
Definition clock_monotone : Prop :=
  forall m n, (m <= n)%nat -> system_clock m <= system_clock n.
End Accounting.

(** The concrete instance with a clock that shows 100, 150, 200, ... *)
Module Steady.

Definition externals : Externals :=
  {| ResourceID_t := N;
     ResourceDescriptor := list (string * N);
     JobDescriptor := string;
     DebugString := fun s => s;
     string_generator := fun s => Demo.hex_value s 0%N;
     system_clock := fun n => 100 + 50 * Z.of_nat n;
     FLAGS_listen_uri := "tcp://localhost:9998" |}.

Definition register_A : @RegistrationMessage.t externals :=
  RegistrationMessage.mk externals Demo.uuid_A [("cpu"%string, 4%N)].

Definition heartbeat_A : HeartbeatMessage.t := HeartbeatMessage.mk Demo.uuid_A.

Definition registration_of_A : @BaseMessage externals :=
  {| register_extn := Some register_A; heartbeat_extn := None; other_extns := [] |}.

Definition heartbeat_of_A : @BaseMessage externals :=
  {| register_extn := None; heartbeat_extn := Some heartbeat_A; other_extns := [] |}.

(** The coordinator after the registration of A has been handled, at
    time 100, by a coordinator that has just started. *)
Definition with_A : @Coordinator externals :=
  match HandleRegistrationRequest register_A initial with
  | Returns _ c | Aborts c | Blocks c => c
  end.

(** A heartbeat of the unregistered B, then the registration of A. *)
Definition heartbeat_B_then_register_A : list (@Event externals) :=
  [MessageDelivered {| register_extn := None;
                       heartbeat_extn := Some (HeartbeatMessage.mk Demo.uuid_B);
                       other_extns := [] |};
   MessageDelivered registration_of_A].

(** The error code of a receive that went well. *)
Definition success : error_code := {| value := 0; message := "Success" |}.

End Steady.

(** ** Identity strings that the parser refuses

    [boost::uuids::string_generator] throws [std::runtime_error] on a
    string that is not the text form of a uuid, and [coordinator.cc]
    catches nothing.  In [HandleHeartbeat] and
    [HandleRegistrationRequest] the conversion is the first thing that
    runs (lines 149 and 166), so the exception leaves the handler before
    it has logged, read the clock or touched the registry, and it passes
    through [HandleIncomingMessage] to whoever called it.

    [well_formed] says which strings the parser accepts; on those
    [string_generator] is the identity it returns.  Module [Exn] embeds
    the two handlers and the dispatcher again, statement by statement,
    with this path in them. *)
Class UuidGrammar := { well_formed : string -> bool }.

(** Whether the parser accepts the identity strings of the extensions
    the message carries. *)
Definition carried_well_formed `{Externals} `{UuidGrammar} (bm : BaseMessage) : bool :=
  match register_extn bm with
  | Some msg => well_formed (RegistrationMessage.uuid msg)
  | None => true
  end &&
  match heartbeat_extn bm with
  | Some msg => well_formed (HeartbeatMessage.uuid msg)
  | None => true
  end.

Module Exn.

(** A call either finishes, with one of the outcomes above, or an
    exception leaves it; [c] is the coordinator at that moment. *)
Inductive Attempt `{Externals} (A : Type) :=
  | Finishes (o : Outcome A)
  | Throws (c : Coordinator).
Global Arguments Finishes {_ A} o.
Global Arguments Throws {_ A} c.

Section Throwing.
Context `{E : Externals} `{G : UuidGrammar}.

Definition T (A : Type) := Coordinator -> Attempt A.

(** A computation that throws nothing. *)
Definition lift {A} (m : M A) : T A := fun c => Finishes (m c).

Definition bind {A B} (m : T A) (k : A -> T B) : T B :=
  fun c => match m c with
           | Finishes (Returns a c') => k a c'
           | Finishes (Aborts c') => Finishes (Aborts c')
           | Finishes (Blocks c') => Finishes (Blocks c')
           | Throws c' => Throws c'
           end.

(** [gen(s)] for a [boost::uuids::string_generator gen]. *)
Definition gen (s : string) : T ResourceID_t :=
  fun c => if well_formed s then Finishes (Returns (string_generator s) c)
           else Throws c.

Definition HandleHeartbeat (msg : HeartbeatMessage.t) : T unit :=
  bind (gen (HeartbeatMessage.uuid msg)) (fun uuid =>
  bind (lift (FindOrNull uuid)) (fun rdp =>
  match rdp with
  | None => lift (LOG WARNING (HeartbeatFromUnknown (HeartbeatMessage.uuid msg)))
  | Some p =>
      bind (lift (LOG INFO (HeartbeatFrom (HeartbeatMessage.uuid msg) p.2))) (fun _ =>
      bind (lift GetCurrentTimestamp) (fun now =>
      lift (store_second uuid now)))
  end)).

Definition HandleRegistrationRequest (msg : RegistrationMessage.t) : T unit :=
  bind (gen (RegistrationMessage.uuid msg)) (fun uuid =>
  bind (lift (FindOrNull uuid)) (fun rdp =>
  match rdp with
  | None =>
      bind (lift (LOG INFO (RegisteringNewResource (RegistrationMessage.uuid msg))))
        (fun _ =>
      bind (lift GetCurrentTimestamp) (fun now =>
      bind (lift (InsertIfNotPresent uuid (RegistrationMessage.res_desc msg, now)))
        (fun inserted =>
      lift (CHECK inserted))))
  | Some _ =>
      bind (lift (LOG INFO (RegistrationAlreadyKnown (RegistrationMessage.uuid msg))))
        (fun _ =>
      bind (lift GetCurrentTimestamp) (fun now =>
      lift (store_second uuid now)))
  end)).

Definition HandleIncomingMessage (bm : BaseMessage) : T unit :=
  bind (match register_extn bm with
        | Some msg => HandleRegistrationRequest msg
        | None => lift (ret tt)
        end) (fun _ =>
  match heartbeat_extn bm with
  | Some msg => HandleHeartbeat msg
  | None => lift (ret tt)
  end).
End Throwing.

End Exn.

(** An instance of the grammar and messages it refuses. *)
Module Malformed.

Fixpoint hex_run (n : nat) (s : string) : option string :=
  match n with
  | O => Some s
  | S n' =>
      match s with
      | String a rest =>
          match Demo.hex_digit a with
          | Some _ => hex_run n' rest
          | None => None
          end
      | EmptyString => None
      end
  end.

Definition dash (s : string) : option string :=
  match s with
  | String "-"%char rest => Some rest
  | _ => None
  end.

(** Groups of hexadecimal digits of the given sizes, with a dash
    between two groups and nothing after the last. *)
Fixpoint groups (sizes : list nat) (s : string) : bool :=
  match sizes with
  | [] => false
  | [n] =>
      match hex_run n s with
      | Some EmptyString => true
      | _ => false
      end
  | n :: rest =>
      match hex_run n s with
      | Some r =>
          match dash r with
          | Some r' => groups rest r'
          | None => false
          end
      | None => false
      end
  end.

(** The canonical text form 8-4-4-4-12, one of the forms the Boost
    parser accepts; a string that does not start with a hexadecimal
    digit or a brace is refused by both. *)
Definition canonical (s : string) : bool := groups [8; 4; 4; 4; 12]%nat s.

Definition grammar : UuidGrammar := {| well_formed := canonical |}.

Definition not_a_uuid : string := "not-a-uuid".

Definition register_malformed : @RegistrationMessage.t Demo.externals :=
  RegistrationMessage.mk Demo.externals not_a_uuid [("cpu"%string, 8%N)].

Definition heartbeat_malformed : HeartbeatMessage.t := HeartbeatMessage.mk not_a_uuid.

(** A malformed registration together with a sound heartbeat of A. *)
Definition bad_registration_good_heartbeat : @BaseMessage Demo.externals :=
  {| register_extn := Some register_malformed;
     heartbeat_extn := Some Demo.heartbeat_A;
     other_extns := [] |}.

(** A sound registration of A together with a malformed heartbeat. *)
Definition good_registration_bad_heartbeat : @BaseMessage Demo.externals :=
  {| register_extn := Some Demo.register_A_cpu4;
     heartbeat_extn := Some heartbeat_malformed;
     other_extns := [] |}.

End Malformed.


(** * Properties *)

Section Handlers.
Context `{E : Externals}.

Implicit Types (c : Coordinator) (id : ResourceID_t).

(** ** The handlers as state transformers *)

Lemma HandleHeartbeat_unknown c (msg : HeartbeatMessage.t) :
  associated_resources_ c !! string_generator (HeartbeatMessage.uuid msg) = None ->
  HandleHeartbeat msg c =
    Returns tt (add_log WARNING (HeartbeatFromUnknown (HeartbeatMessage.uuid msg)) c).
Proof.
  intros Hnone. unfold HandleHeartbeat, bind, FindOrNull, get.
  now rewrite Hnone.
Qed.

Lemma HandleHeartbeat_known c (msg : HeartbeatMessage.t) p :
  associated_resources_ c !! string_generator (HeartbeatMessage.uuid msg) = Some p ->
  HandleHeartbeat msg c =
    Returns tt
      (set_associated_resources_
         (alter (fun q => (q.1, system_clock (clock_reads c)))
                (string_generator (HeartbeatMessage.uuid msg)))
         (tick_clock (add_log INFO (HeartbeatFrom (HeartbeatMessage.uuid msg) p.2) c))).
Proof.
  intros Hsome. unfold HandleHeartbeat, bind, FindOrNull, get.
  now rewrite Hsome.
Qed.

Lemma HandleRegistrationRequest_new c (msg : RegistrationMessage.t) :
  associated_resources_ c !! string_generator (RegistrationMessage.uuid msg) = None ->
  HandleRegistrationRequest msg c =
    Returns tt
      (set_associated_resources_
         (insert (string_generator (RegistrationMessage.uuid msg))
                 (RegistrationMessage.res_desc msg, system_clock (clock_reads c)))
         (tick_clock
            (add_log INFO (RegisteringNewResource (RegistrationMessage.uuid msg)) c))).
Proof.
  intros Hnone.
  unfold HandleRegistrationRequest, bind, FindOrNull, get.
  rewrite Hnone. cbn. unfold InsertIfNotPresent. cbn.
  now rewrite Hnone.
Qed.

Lemma HandleRegistrationRequest_known c (msg : RegistrationMessage.t) p :
  associated_resources_ c !! string_generator (RegistrationMessage.uuid msg) = Some p ->
  HandleRegistrationRequest msg c =
    Returns tt
      (set_associated_resources_
         (alter (fun q => (q.1, system_clock (clock_reads c)))
                (string_generator (RegistrationMessage.uuid msg)))
         (tick_clock
            (add_log INFO (RegistrationAlreadyKnown (RegistrationMessage.uuid msg)) c))).
Proof.
  intros Hsome.
  unfold HandleRegistrationRequest, bind, FindOrNull, get.
  now rewrite Hsome.
Qed.

(** The [CHECK] in [HandleRegistrationRequest] cannot fail: the handler
    always returns. *)
Lemma HandleRegistrationRequest_returns c (msg : RegistrationMessage.t) :
  exists c', HandleRegistrationRequest msg c = Returns tt c'.
Proof.
  destruct (associated_resources_ c !! string_generator (RegistrationMessage.uuid msg))
    as [p|] eqn:Hl.
  - rewrite (HandleRegistrationRequest_known _ _ _ Hl). eauto.
  - rewrite (HandleRegistrationRequest_new _ _ Hl). eauto.
Qed.

Lemma HandleHeartbeat_returns c (msg : HeartbeatMessage.t) :
  exists c', HandleHeartbeat msg c = Returns tt c'.
Proof.
  destruct (associated_resources_ c !! string_generator (HeartbeatMessage.uuid msg))
    as [p|] eqn:Hl.
  - rewrite (HandleHeartbeat_known _ _ _ Hl). eauto.
  - rewrite (HandleHeartbeat_unknown _ _ Hl). eauto.
Qed.

End Handlers.

(** ** What every handler preserves *)

Section Preservation.
Context `{E : Externals}.

Implicit Types (c : Coordinator) (id : ResourceID_t).

Lemma keeps_records_refl c : keeps_records c c.
Proof. intros id d t Hl. eauto. Qed.

Lemma keeps_records_same c c' :
  associated_resources_ c' = associated_resources_ c -> keeps_records c c'.
Proof. intros Heq id d t Hl. rewrite Heq. eauto. Qed.

Lemma keeps_records_trans c1 c2 c3 :
  keeps_records c1 c2 -> keeps_records c2 c3 -> keeps_records c1 c3.
Proof.
  intros H12 H23 id d t Hl.
  destruct (H12 _ _ _ Hl) as [t2 Hl2]. exact (H23 _ _ _ Hl2).
Qed.

Lemma keeps_records_dom c c' :
  keeps_records c c' ->
  dom (associated_resources_ c) ⊆ dom (associated_resources_ c').
Proof.
  intros Hk id Hin. apply elem_of_dom in Hin as [[d t] Hl].
  destruct (Hk _ _ _ Hl) as [t' Hl']. apply elem_of_dom. eauto.
Qed.

Lemma keeps_records_alter c c' id now :
  associated_resources_ c' =
    alter (fun q : ResourceDescriptor * Z => (q.1, now)) id (associated_resources_ c) ->
  keeps_records c c'.
Proof.
  intros Heq id' d t Hl. rewrite Heq.
  destruct (decide (id = id')) as [->|Hne].
  - rewrite lookup_alter_eq, Hl. cbn. eauto.
  - rewrite lookup_alter_ne by done. eauto.
Qed.

Lemma keeps_records_insert c c' id v :
  associated_resources_ c !! id = None ->
  associated_resources_ c' = <[id:=v]> (associated_resources_ c) ->
  keeps_records c c'.
Proof.
  intros Hnone Heq id' d t Hl. rewrite Heq.
  destruct (decide (id = id')) as [->|Hne]; [congruence|].
  rewrite lookup_insert_ne by done. eauto.
Qed.

Lemma quiet_refl c : quiet c c.
Proof. split; [apply keeps_records_refl|done]. Qed.

Lemma quiet_same c c' :
  associated_resources_ c' = associated_resources_ c ->
  exit_ c' = exit_ c -> m_adapter_ c' = m_adapter_ c -> quiet c c'.
Proof. intros Hr Hx Ha. split; [now apply keeps_records_same|done]. Qed.

Lemma quiet_trans c1 c2 c3 : quiet c1 c2 -> quiet c2 c3 -> quiet c1 c3.
Proof.
  intros (K12 & X12 & A12) (K23 & X23 & A23). split; [|split].
  - eapply keeps_records_trans; eauto.
  - congruence.
  - congruence.
Qed.

Lemma HandleRegistrationRequest_quiet c (msg : RegistrationMessage.t) :
  exists c', HandleRegistrationRequest msg c = Returns tt c' /\ quiet c c'.
Proof.
  destruct (associated_resources_ c !! string_generator (RegistrationMessage.uuid msg))
    as [p|] eqn:Hl.
  - rewrite (HandleRegistrationRequest_known _ _ _ Hl).
    eexists; split; [reflexivity|]. split; [|done].
    eapply keeps_records_alter. reflexivity.
  - rewrite (HandleRegistrationRequest_new _ _ Hl).
    eexists; split; [reflexivity|]. split; [|done].
    eapply keeps_records_insert; [exact Hl|reflexivity].
Qed.

Lemma HandleHeartbeat_quiet c (msg : HeartbeatMessage.t) :
  exists c', HandleHeartbeat msg c = Returns tt c' /\ quiet c c'.
Proof.
  destruct (associated_resources_ c !! string_generator (HeartbeatMessage.uuid msg))
    as [p|] eqn:Hl.
  - rewrite (HandleHeartbeat_known _ _ _ Hl).
    eexists; split; [reflexivity|]. split; [|done].
    eapply keeps_records_alter. reflexivity.
  - rewrite (HandleHeartbeat_unknown _ _ Hl).
    eexists; split; [reflexivity|]. now apply quiet_same.
Qed.

Lemma HandleIncomingMessage_quiet c (bm : BaseMessage) :
  exists c', HandleIncomingMessage bm c = Returns tt c' /\ quiet c c'.
Proof.
  unfold HandleIncomingMessage, bind.
  assert (exists c1,
    match register_extn bm with
    | Some msg => HandleRegistrationRequest msg
    | None => ret tt
    end c = Returns tt c1 /\ quiet c c1) as (c1 & -> & Q1).
  { destruct (register_extn bm) as [msg|].
    - apply HandleRegistrationRequest_quiet.
    - exists c. split; [reflexivity|apply quiet_refl]. }
  destruct (heartbeat_extn bm) as [msg|].
  - destruct (HandleHeartbeat_quiet c1 msg) as (c2 & -> & Q2).
    exists c2. split; [reflexivity|]. eapply quiet_trans; eauto.
  - exists c1. split; [reflexivity|done].
Qed.

Lemma HandleRecv_quiet c error bytes_transferred (env : Envelope) :
  exists c', HandleRecv error bytes_transferred env c = Returns tt c' /\ quiet c c'.
Proof.
  unfold HandleRecv. destruct (is_error error).
  - eexists; split; [reflexivity|now apply quiet_same].
  - unfold bind; cbn.
    destruct (HandleIncomingMessage_quiet
                (add_log (VLOG 2) (ReceivedAsync bytes_transferred env) c) (data env))
      as (c' & -> & Q).
    exists c'. split; [reflexivity|].
    eapply quiet_trans; [|exact Q]. now apply quiet_same.
Qed.

(** ** Events *)

Lemma handle_event_returns (e : Event) c :
  exists c', handle_event e c = Returns tt c' /\
    keeps_records c c' /\
    exit_ c' = exit_ c || sets_exit e /\
    m_adapter_ c' = m_adapter_ c ++ (if is_shutdown_call e then [StopListen] else []).
Proof.
  destruct e as [bm|error n env| |reason|jd]; cbn [handle_event sets_exit is_shutdown_call].
  - destruct (HandleIncomingMessage_quiet c bm) as (c' & -> & K & X & A).
    exists c'. rewrite X, A, orb_false_r, app_nil_r. done.
  - destruct (HandleRecv_quiet c error n env) as (c' & -> & K & X & A).
    exists c'. rewrite X, A, orb_false_r, app_nil_r. done.
  - eexists; split; [reflexivity|]. cbn. rewrite orb_true_r, app_nil_r.
    split; [now apply keeps_records_same|done].
  - eexists; split; [reflexivity|]. cbn. rewrite orb_true_r.
    split; [now apply keeps_records_same|done].
  - eexists; split; [reflexivity|]. cbn. rewrite orb_false_r, app_nil_r.
    split; [now apply keeps_records_same|done].
Qed.

Lemma handle_events_returns (events : list Event) c :
  exists c', handle_events events c = Returns tt c' /\
    keeps_records c c' /\
    exit_ c' = exit_ c || existsb sets_exit events /\
    m_adapter_ c' = m_adapter_ c ++ repeat StopListen (shutdown_calls events).
Proof.
  revert c. induction events as [|e rest IH]; intros c.
  - exists c. cbn. rewrite orb_false_r, app_nil_r.
    split; [reflexivity|]. split; [apply keeps_records_refl|done].
  - destruct (handle_event_returns e c) as (c1 & He & K1 & X1 & A1).
    destruct (IH c1) as (c2 & Hr & K2 & X2 & A2).
    exists c2. split; [|split; [|split]].
    + cbn [handle_events]. unfold bind. now rewrite He.
    + eapply keeps_records_trans; eauto.
    + rewrite X2, X1. cbn [existsb]. now rewrite orb_assoc.
    + rewrite A2, A1, <- app_assoc. f_equal.
      unfold shutdown_calls. cbn [List.filter].
      destruct (is_shutdown_call e); reflexivity.
Qed.

End Preservation.

(** ** The registry operations *)

Section Registry.
Context `{E : Externals}.

Implicit Types (c : Coordinator) (id : ResourceID_t).

Lemma lookup_store_second (m : gmap ResourceID_t (ResourceDescriptor * Z))
    id id' (now : Z) :
  alter (fun q : ResourceDescriptor * Z => (q.1, now)) id m !! id' =
    if decide (id = id') then (fun q => (q.1, now)) <$> m !! id' else m !! id'.
Proof.
  destruct (decide (id = id')) as [->|Hne].
  - apply lookup_alter_eq.
  - now apply lookup_alter_ne.
Qed.

(** C1.  A registration for an identity the registry already holds
    returns normally, leaves the stored descriptor [d1] as it was
    whatever descriptor the message carries, sets the stored time stamp
    to the clock reading of this call, touches no other record and logs
    the "already known" line. *)
Theorem reregistration_keeps_descriptor c (msg : RegistrationMessage.t) d1 t1 :
  associated_resources_ c !! string_generator (RegistrationMessage.uuid msg)
    = Some (d1, t1) ->
  exists c',
    HandleRegistrationRequest msg c = Returns tt c' /\
    associated_resources_ c' !! string_generator (RegistrationMessage.uuid msg)
      = Some (d1, system_clock (clock_reads c)) /\
    (forall id, id <> string_generator (RegistrationMessage.uuid msg) ->
       associated_resources_ c' !! id = associated_resources_ c !! id) /\
    log c' = log c ++ [(INFO, RegistrationAlreadyKnown (RegistrationMessage.uuid msg))].
Proof.
  intros Hl. rewrite (HandleRegistrationRequest_known _ _ _ Hl).
  eexists; split; [reflexivity|]. cbn. split; [|split].
  - now rewrite lookup_alter_eq, Hl.
  - intros id Hne. now rewrite lookup_alter_ne.
  - reflexivity.
Qed.

(** C4.  A registration for an identity absent from the registry returns
    normally, stores the pair of the message's descriptor and the clock
    reading of this call under the identity, and logs the "new resource"
    line. *)
Theorem registration_inserts_new_record c (msg : RegistrationMessage.t) :
  associated_resources_ c !! string_generator (RegistrationMessage.uuid msg) = None ->
  exists c',
    HandleRegistrationRequest msg c = Returns tt c' /\
    associated_resources_ c' =
      <[string_generator (RegistrationMessage.uuid msg) :=
          (RegistrationMessage.res_desc msg, system_clock (clock_reads c))]>
        (associated_resources_ c) /\
    log c' = log c ++ [(INFO, RegisteringNewResource (RegistrationMessage.uuid msg))].
Proof.
  intros Hl. rewrite (HandleRegistrationRequest_new _ _ Hl).
  eexists; split; [reflexivity|]. done.
Qed.

(** C3.  A heartbeat for an identity with no record returns normally and
    changes nothing but the log, which gains the one warning line: the
    registry, the exit toggle, the adapter and the clock are as before. *)
Theorem heartbeat_unknown_changes_nothing c (msg : HeartbeatMessage.t) :
  associated_resources_ c !! string_generator (HeartbeatMessage.uuid msg) = None ->
  exists c',
    HandleHeartbeat msg c = Returns tt c' /\
    associated_resources_ c' = associated_resources_ c /\
    log c' = log c ++ [(WARNING, HeartbeatFromUnknown (HeartbeatMessage.uuid msg))] /\
    exit_ c' = exit_ c /\ m_adapter_ c' = m_adapter_ c /\
    clock_reads c' = clock_reads c.
Proof.
  intros Hl. rewrite (HandleHeartbeat_unknown _ _ Hl).
  eexists; split; [reflexivity|]. done.
Qed.

(** C5, for an identity that has no record yet.  Registering it with
    descriptor [d] and then handling a heartbeat for the same identity
    leaves the record [(d, t2)], where [t2] is the clock reading of the
    heartbeat (the one after the registration's). *)
Theorem register_then_heartbeat c (reg : RegistrationMessage.t)
    (hb : HeartbeatMessage.t) :
  associated_resources_ c !! string_generator (RegistrationMessage.uuid reg) = None ->
  string_generator (HeartbeatMessage.uuid hb) =
    string_generator (RegistrationMessage.uuid reg) ->
  exists c',
    (HandleRegistrationRequest reg;; HandleHeartbeat hb) c = Returns tt c' /\
    associated_resources_ c' !! string_generator (RegistrationMessage.uuid reg)
      = Some (RegistrationMessage.res_desc reg, system_clock (S (clock_reads c))).
Proof.
  intros Hl Hid. unfold bind.
  rewrite (HandleRegistrationRequest_new _ _ Hl).
  erewrite HandleHeartbeat_known.
  2:{ cbn. rewrite Hid. apply lookup_insert_eq. }
  eexists; split; [reflexivity|]. cbn.
  now rewrite Hid, lookup_alter_eq, lookup_insert_eq.
Qed.

(** The same two messages for an identity that already has a record
    [(d0, t0)]: the descriptor stays [d0], as in C1, and the time stamp
    is again the heartbeat's. *)
Lemma reregister_then_heartbeat c (reg : RegistrationMessage.t)
    (hb : HeartbeatMessage.t) d0 t0 :
  associated_resources_ c !! string_generator (RegistrationMessage.uuid reg)
    = Some (d0, t0) ->
  string_generator (HeartbeatMessage.uuid hb) =
    string_generator (RegistrationMessage.uuid reg) ->
  exists c',
    (HandleRegistrationRequest reg;; HandleHeartbeat hb) c = Returns tt c' /\
    associated_resources_ c' !! string_generator (RegistrationMessage.uuid reg)
      = Some (d0, system_clock (S (clock_reads c))).
Proof.
  intros Hl Hid. unfold bind.
  rewrite (HandleRegistrationRequest_known _ _ _ Hl).
  erewrite HandleHeartbeat_known.
  2:{ cbn. rewrite Hid, lookup_alter_eq, Hl. reflexivity. }
  eexists; split; [reflexivity|]. cbn.
  now rewrite Hid, !lookup_alter_eq, Hl.
Qed.

End Registry.

(** ** The dispatcher *)

Section Dispatcher.
Context `{E : Externals}.

Implicit Types (c : Coordinator) (bm : BaseMessage).

(** The dispatcher without the parser's exception, on a message with
    both extensions: it is the registration handler followed by the
    heartbeat handler, the second running on the state the first left.
    Both return; the log gains exactly two lines, one of the
    registration handler and then one of the heartbeat handler.  When
    both name the same identity the heartbeat finds the record and
    reports as last-seen time the stamp the registration has just
    written. *)
Lemma dispatch_registration_before_heartbeat bm reg hb c :
  register_extn bm = Some reg ->
  heartbeat_extn bm = Some hb ->
  HandleIncomingMessage bm c = (HandleRegistrationRequest reg;; HandleHeartbeat hb) c /\
  exists c1 c2 lr lh,
    HandleRegistrationRequest reg c = Returns tt c1 /\
    HandleHeartbeat hb c1 = Returns tt c2 /\
    HandleIncomingMessage bm c = Returns tt c2 /\
    log c1 = log c ++ [lr] /\ registration_line reg lr /\
    log c2 = log c ++ [lr; lh] /\ heartbeat_line hb lh /\
    (string_generator (HeartbeatMessage.uuid hb) =
       string_generator (RegistrationMessage.uuid reg) ->
     lh = (INFO, HeartbeatFrom (HeartbeatMessage.uuid hb) (system_clock (clock_reads c)))).
Proof.
  intros Hr Hh.
  assert (Heq : HandleIncomingMessage bm c =
                (HandleRegistrationRequest reg;; HandleHeartbeat hb) c).
  { unfold HandleIncomingMessage. now rewrite Hr, Hh. }
  split; [exact Heq|]. rewrite Heq. unfold bind.
  set (idr := string_generator (RegistrationMessage.uuid reg)).
  set (idh := string_generator (HeartbeatMessage.uuid hb)).
  assert (exists c1 lr,
    HandleRegistrationRequest reg c = Returns tt c1 /\
    log c1 = log c ++ [lr] /\ registration_line reg lr /\
    exists d, associated_resources_ c1 !! idr = Some (d, system_clock (clock_reads c)))
    as (c1 & lr & H1 & L1 & R1 & d & Hd).
  { destruct (associated_resources_ c !! idr) as [[d t]|] eqn:Hl.
    - rewrite (HandleRegistrationRequest_known _ _ _ Hl).
      do 2 eexists; split; [reflexivity|]. cbn. split; [reflexivity|].
      split; [now right|]. exists d. fold idr. now rewrite lookup_alter_eq, Hl.
    - rewrite (HandleRegistrationRequest_new _ _ Hl).
      do 2 eexists; split; [reflexivity|]. cbn. split; [reflexivity|].
      split; [now left|]. eexists. fold idr. apply lookup_insert_eq. }
  assert (exists c2 lh,
    HandleHeartbeat hb c1 = Returns tt c2 /\
    log c2 = log c1 ++ [lh] /\ heartbeat_line hb lh /\
    (idh = idr -> lh = (INFO, HeartbeatFrom (HeartbeatMessage.uuid hb)
                                (system_clock (clock_reads c)))))
    as (c2 & lh & H2 & L2 & R2 & Hseen).
  { destruct (associated_resources_ c1 !! idh) as [p|] eqn:Hl.
    - rewrite (HandleHeartbeat_known _ _ _ Hl).
      do 2 eexists; split; [reflexivity|]. cbn. split; [reflexivity|].
      split; [right; eauto|].
      intros Hid. rewrite Hid, Hd in Hl. now inversion Hl.
    - rewrite (HandleHeartbeat_unknown _ _ Hl).
      do 2 eexists; split; [reflexivity|]. cbn. split; [reflexivity|].
      split; [now left|].
      intros Hid. rewrite Hid, Hd in Hl. discriminate. }
  exists c1, c2, lr, lh. rewrite H1.
  split; [reflexivity|]. split; [exact H2|]. split; [exact H2|].
  split; [exact L1|]. split; [exact R1|].
  split; [now rewrite L2, L1, <- app_assoc|]. split; [exact R2|exact Hseen].
Qed.

(** C6.  A message with neither extension is dispatched to no handler:
    the dispatcher returns and the whole state, registry and log
    included, is what it was. *)
Theorem dispatch_without_known_kind_is_noop bm c :
  register_extn bm = None ->
  heartbeat_extn bm = None ->
  HandleIncomingMessage bm c = Returns tt c.
Proof.
  intros Hr Hh. unfold HandleIncomingMessage. now rewrite Hr, Hh.
Qed.

End Dispatcher.

(** ** The receive completion and the job-submission stub *)

Section Boundary.
Context `{E : Externals}.

Implicit Types (c : Coordinator).

(** C9.  A receive completion that reports an error returns normally
    after writing the one warning line: no handler runs (the log gains
    nothing else, the clock is not read), the registry, the exit toggle
    and the adapter are untouched.  A main loop that is running goes on
    to its next test of [exit_], which still finds it false. *)
Theorem receive_error_is_dropped error bytes_transferred (env : Envelope) c :
  is_error error = true ->
  exists c',
    HandleRecv error bytes_transferred env c = Returns tt c' /\
    log c' = log c ++ [(WARNING, AsyncReceiveError (message error))] /\
    associated_resources_ c' = associated_resources_ c /\
    clock_reads c' = clock_reads c /\
    exit_ c' = exit_ c /\ m_adapter_ c' = m_adapter_ c /\
    (exit_ c = false ->
     forall later, exists c'',
       main_loop ([ReceiveCompleted error bytes_transferred env] :: later) c
         = main_loop later c'' /\
       exit_ c'' = false /\
       associated_resources_ c'' = associated_resources_ c).
Proof.
  intros Herr. unfold HandleRecv. rewrite Herr.
  eexists; split; [reflexivity|]. cbn.
  do 5 (split; [reflexivity|]).
  intros Hx later. cbn [main_loop]. rewrite Hx.
  unfold bind; cbn. unfold HandleRecv. rewrite Herr. cbn.
  eexists; split; [reflexivity|]. cbn. done.
Qed.

(** C10.  [SubmitJob] returns the string [test1234] for every job
    descriptor and in every state; two submissions in a row get the same
    identifier. *)
Theorem SubmitJob_is_constant (d1 d2 : JobDescriptor) c1 c2 :
  (exists c1', SubmitJob d1 c1 = Returns "test1234"%string c1') /\
  (exists c2', SubmitJob d2 c2 = Returns "test1234"%string c2') /\
  (exists c', (id1 <- SubmitJob d1;; id2 <- SubmitJob d2;; ret (id1, id2)) c1
              = Returns ("test1234"%string, "test1234"%string) c').
Proof.
  split; [|split]; eexists; reflexivity.
Qed.

End Boundary.

(** ** Sequences of operations *)

Section Sequences.
Context `{E : Externals}.

Implicit Types (c : Coordinator) (id : ResourceID_t).

Lemma HandleHeartbeat_dom (msg : HeartbeatMessage.t) c c' :
  HandleHeartbeat msg c = Returns tt c' ->
  dom (associated_resources_ c') = dom (associated_resources_ c).
Proof.
  intros Hrun.
  destruct (associated_resources_ c !! string_generator (HeartbeatMessage.uuid msg))
    as [p|] eqn:Hl.
  - rewrite (HandleHeartbeat_known _ _ _ Hl) in Hrun.
    inversion Hrun; subst; cbn. apply dom_alter_L.
  - rewrite (HandleHeartbeat_unknown _ _ Hl) in Hrun. now inversion Hrun; subst.
Qed.

Lemma HandleRegistrationRequest_dom (msg : RegistrationMessage.t) c c' :
  HandleRegistrationRequest msg c = Returns tt c' ->
  dom (associated_resources_ c') =
    dom (associated_resources_ c) ∪ {[ string_generator (RegistrationMessage.uuid msg) ]}.
Proof.
  intros Hrun.
  destruct (associated_resources_ c !! string_generator (RegistrationMessage.uuid msg))
    as [p|] eqn:Hl.
  - rewrite (HandleRegistrationRequest_known _ _ _ Hl) in Hrun.
    inversion Hrun; subst; cbn. rewrite dom_alter_L.
    rewrite (comm_L (∪)). symmetry. apply subseteq_union_1_L.
    apply singleton_subseteq_l, elem_of_dom. eauto.
  - rewrite (HandleRegistrationRequest_new _ _ Hl) in Hrun.
    inversion Hrun; subst; cbn. rewrite dom_insert_L. apply (comm_L (∪)).
Qed.

Lemma HandleIncomingMessage_dom (bm : BaseMessage) c c' :
  HandleIncomingMessage bm c = Returns tt c' ->
  dom (associated_resources_ c') =
    dom (associated_resources_ c) ∪ registered_by_message bm.
Proof.
  unfold HandleIncomingMessage, bind, registered_by_message. intros Hrun.
  destruct (register_extn bm) as [reg|].
  - destruct (HandleRegistrationRequest_returns c reg) as [c1 H1].
    rewrite H1 in Hrun. apply HandleRegistrationRequest_dom in H1.
    destruct (heartbeat_extn bm) as [hb|].
    + apply HandleHeartbeat_dom in Hrun. congruence.
    + inversion Hrun; subst. exact H1.
  - cbn in Hrun. destruct (heartbeat_extn bm) as [hb|].
    + apply HandleHeartbeat_dom in Hrun. now rewrite Hrun, union_empty_r_L.
    + inversion Hrun; subst. now rewrite union_empty_r_L.
Qed.

Lemma handle_event_dom (e : Event) c c' :
  handle_event e c = Returns tt c' ->
  dom (associated_resources_ c') = dom (associated_resources_ c) ∪ registered_by e.
Proof.
  intros Hrun. destruct e as [bm|error n env| |reason|jd]; cbn in *.
  - now apply HandleIncomingMessage_dom.
  - unfold HandleRecv in Hrun. destruct (is_error error).
    + inversion Hrun; subst; cbn. now rewrite union_empty_r_L.
    + unfold bind in Hrun; cbn in Hrun.
      now apply HandleIncomingMessage_dom in Hrun.
  - inversion Hrun; subst; cbn. now rewrite union_empty_r_L.
  - inversion Hrun; subst; cbn. now rewrite union_empty_r_L.
  - inversion Hrun; subst; cbn. now rewrite union_empty_r_L.
Qed.

Lemma handle_events_dom (events : list Event) c c' :
  handle_events events c = Returns tt c' ->
  dom (associated_resources_ c') = dom (associated_resources_ c) ∪ registered_ids events.
Proof.
  revert c. induction events as [|e rest IH]; intros c Hrun.
  - inversion Hrun; subst. unfold registered_ids. cbn. now rewrite union_empty_r_L.
  - cbn [handle_events] in Hrun. unfold bind in Hrun.
    destruct (handle_event_returns e c) as (c1 & He & _).
    rewrite He in Hrun. apply handle_event_dom in He. apply IH in Hrun.
    rewrite Hrun, He. unfold registered_ids. cbn. now rewrite (assoc_L (∪)).
Qed.

(** C7.  Whatever sequence of events is handled, registrations and
    heartbeats in any order among them, every handler returns; the
    registry then lists no identity twice; the identities it holds are
    those it held before and those for which a registration was handled,
    so none has gone and a heartbeat adds none; and each record present
    before is still present with its descriptor. *)
Theorem registry_only_grows (events : list Event) c :
  exists c',
    handle_events events c = Returns tt c' /\
    NoDup (map_to_list (associated_resources_ c')).*1 /\
    dom (associated_resources_ c') =
      dom (associated_resources_ c) ∪ registered_ids events /\
    dom (associated_resources_ c) ⊆ dom (associated_resources_ c') /\
    keeps_records c c'.
Proof.
  destruct (handle_events_returns events c) as (c' & Hrun & Hk & _).
  exists c'. split; [exact Hrun|]. split; [apply NoDup_fst_map_to_list|].
  split; [now apply handle_events_dom|].
  split; [now apply keeps_records_dom|exact Hk].
Qed.

(** An identity for which no registration has been handled since the
    coordinator started, or since it had no record, has no record. *)
Lemma never_registered_has_no_record id (events : list Event) c c' :
  id ∉ registered_ids events ->
  handle_events events c = Returns tt c' ->
  associated_resources_ c !! id = None ->
  associated_resources_ c' !! id = None.
Proof.
  intros Hno Hrun Hnone. apply handle_events_dom in Hrun.
  apply not_elem_of_dom. apply not_elem_of_dom in Hnone.
  rewrite Hrun. apply not_elem_of_union. done.
Qed.

End Sequences.

(** ** The main loop *)

Section MainLoop.
Context `{E : Externals}.

Implicit Types (c : Coordinator).

Lemma main_loop_exit_set schedule c :
  exit_ c = true -> main_loop schedule c = Returns tt c.
Proof. intros Hx. destruct schedule; cbn; now rewrite Hx. Qed.

Lemma AwaitNextMessage_returns during c :
  exists c',
    AwaitNextMessage during c = Returns tt c' /\
    exit_ c' = exit_ c || existsb sets_exit during /\
    m_adapter_ c' =
      m_adapter_ c ++ AdapterAwaitNextMessage :: repeat StopListen (shutdown_calls during).
Proof.
  unfold AwaitNextMessage, enter_wait, bind; cbn.
  destruct (handle_events_returns during
              (add_adapter_call AdapterAwaitNextMessage
                 (add_log (VLOG 2) WaitingForNextMessage c)))
    as (c' & -> & _ & Hx & Ha).
  exists c'. split; [reflexivity|]. split; [exact Hx|].
  rewrite Ha. cbn. now rewrite <- app_assoc.
Qed.

Lemma waits_cons during later c :
  waits (during :: later) c =
    (AwaitNextMessage during;; waits later) (add_log (VLOG 2) HelloFromMainLoop c).
Proof. reflexivity. Qed.

Lemma main_loop_cons during later c :
  exit_ c = false ->
  main_loop (during :: later) c =
    (AwaitNextMessage during;; main_loop later) (add_log (VLOG 2) HelloFromMainLoop c).
Proof. intros Hx. cbn [main_loop]. now rewrite Hx. Qed.

Lemma waits_returns cycles c :
  exists c',
    waits cycles c = Returns tt c' /\
    exit_ c' = exit_ c || existsb (existsb sets_exit) cycles /\
    m_adapter_ c' = m_adapter_ c ++ wait_trace cycles.
Proof.
  revert c. induction cycles as [|during later IH]; intros c.
  - exists c. cbn. now rewrite orb_false_r, app_nil_r.
  - rewrite waits_cons. unfold bind.
    destruct (AwaitNextMessage_returns during (add_log (VLOG 2) HelloFromMainLoop c))
      as (c1 & -> & X1 & A1).
    destruct (IH c1) as (c2 & -> & X2 & A2).
    exists c2. split; [reflexivity|]. split.
    + rewrite X2, X1. cbn. now rewrite orb_assoc.
    + rewrite A2, A1. cbn [wait_trace flat_map add_log m_adapter_].
      now rewrite <- !app_assoc.
Qed.

(** The loop enters wait after wait while nothing sets [exit_], completes
    the wait during which it is set, and enters no further one. *)
Lemma main_loop_until_exit pre during post c :
  exit_ c = false ->
  existsb (existsb sets_exit) pre = false ->
  existsb sets_exit during = true ->
  main_loop (pre ++ during :: post) c = waits (pre ++ [during]) c.
Proof.
  revert c. induction pre as [|d pre IH]; intros c Hx Hpre Hduring.
  - cbn [app]. rewrite main_loop_cons by done. rewrite waits_cons.
    unfold bind.
    destruct (AwaitNextMessage_returns during (add_log (VLOG 2) HelloFromMainLoop c))
      as (c1 & -> & X1 & _).
    cbn in X1. rewrite Hx, Hduring in X1.
    now rewrite main_loop_exit_set.
  - cbn in Hpre. apply orb_false_elim in Hpre as [Hd Hpre].
    cbn [app]. rewrite main_loop_cons by done. rewrite waits_cons.
    unfold bind.
    destruct (AwaitNextMessage_returns d (add_log (VLOG 2) HelloFromMainLoop c))
      as (c1 & -> & X1 & _).
    cbn in X1. rewrite Hx, Hd in X1.
    now apply IH.
Qed.

Lemma shutdown_calls_none events :
  existsb sets_exit events = false -> shutdown_calls events = 0%nat.
Proof.
  unfold shutdown_calls. induction events as [|e rest IH]; [done|].
  cbn. intros Hno. apply orb_false_elim in Hno as [He Hrest].
  destruct e; cbn in *; try discriminate; now apply IH.
Qed.

Lemma count_StopListen_repeat n :
  count_occ AdapterCall_eq_dec (repeat StopListen n) StopListen = n.
Proof. induction n as [|n IH]; [done|]. cbn. now rewrite IH. Qed.

Lemma count_Await_repeat n :
  count_occ AdapterCall_eq_dec (repeat StopListen n) AdapterAwaitNextMessage = 0%nat.
Proof. induction n as [|n IH]; [done|]. exact IH. Qed.

Lemma count_Await_wait_trace cycles :
  count_occ AdapterCall_eq_dec (wait_trace cycles) AdapterAwaitNextMessage
    = length cycles.
Proof.
  induction cycles as [|d cycles IH]; [done|].
  cbn [wait_trace flat_map]. rewrite <- app_comm_cons, count_occ_cons_eq by done.
  rewrite count_occ_app, count_Await_repeat. cbn. f_equal. exact IH.
Qed.

Lemma count_StopListen_wait_trace pre during :
  existsb (existsb sets_exit) pre = false ->
  count_occ AdapterCall_eq_dec (wait_trace (pre ++ [during])) StopListen
    = shutdown_calls during.
Proof.
  induction pre as [|d pre IH]; intros Hpre.
  - cbn. now rewrite app_nil_r, count_StopListen_repeat.
  - cbn in Hpre. apply orb_false_elim in Hpre as [Hd Hpre].
    cbn [app wait_trace flat_map]. rewrite shutdown_calls_none by done.
    cbn. now apply IH.
Qed.

(** C8, as the code has it.  Let nothing set [exit_] during the waits
    [pre], and let a signal or a [Shutdown] call set it during the wait
    [during].  Then [Run] returns, and it is [Run] unrolled over the
    waits [pre] and [during]: the wait in flight is completed, all of
    its events handled, and the test at the top of the loop then ends
    the loop, whatever [post] had in store.  The adapter's wait has been
    entered once per wait of [pre] and once more.  [StopListen] has been
    called once by [Run] on its way out and once by every [Shutdown]
    call made during the last wait: exactly once when signals alone set
    the flag. *)
Theorem exit_flag_ends_loop_at_next_test pre during post c :
  exit_ c = false ->
  existsb (existsb sets_exit) pre = false ->
  existsb sets_exit during = true ->
  exists c',
    Run (pre ++ during :: post) c = Returns tt c' /\
    Run (pre ++ during :: post) c = run_through (pre ++ [during]) c /\
    exit_ c' = true /\
    adapter_calls AdapterAwaitNextMessage c' =
      (adapter_calls AdapterAwaitNextMessage c + length pre + 1)%nat /\
    adapter_calls StopListen c' =
      (adapter_calls StopListen c + shutdown_calls during + 1)%nat.
Proof.
  intros Hx Hpre Hduring.
  assert (Heq : Run (pre ++ during :: post) c = run_through (pre ++ [during]) c).
  { unfold Run, run_through, bind; cbn.
    now rewrite main_loop_until_exit. }
  rewrite Heq. unfold run_through, bind; cbn.
  destruct (waits_returns (pre ++ [during])
              (add_adapter_call RegisterAsyncMessageReceiptCallback
                 (add_adapter_call (Listen FLAGS_listen_uri) c)))
    as (c1 & -> & _ & A1).
  eexists; split; [reflexivity|]. split; [reflexivity|]. cbn.
  split; [reflexivity|]. unfold adapter_calls. cbn. rewrite A1. cbn.
  rewrite !count_occ_app. cbn.
  rewrite count_Await_wait_trace, count_StopListen_wait_trace by done.
  rewrite length_app. cbn. split; lia.
Qed.

End MainLoop.

(** ** The theorems at work on the concrete instance *)

Section Instances.
Import Demo.
#[local] Existing Instance Demo.externals.

(** The scenario of the specification: register A with [cpu:4] at 100,
    heartbeat of A at 150, heartbeat of the unregistered B, registration
    of A again with [cpu:8] at 300. *)
Example scenario_registry :
  exists c',
    (HandleRegistrationRequest register_A_cpu4;;
     HandleHeartbeat heartbeat_A;;
     HandleHeartbeat heartbeat_B;;
     HandleRegistrationRequest register_A_cpu8) initial = Returns tt c' /\
    associated_resources_ c' = {[ id_A := ([("cpu"%string, 4%N)], 300) ]} /\
    log c' = [ (INFO, RegisteringNewResource uuid_A);
               (INFO, HeartbeatFrom uuid_A 100);
               (WARNING, HeartbeatFromUnknown uuid_B);
               (INFO, RegistrationAlreadyKnown uuid_A) ].
Proof.
  eexists. split; [reflexivity|]. split; [vm_compute|]; reflexivity.
Qed.

Lemma reregistration_keeps_descriptor_witness :
  associated_resources_ with_A !! string_generator (RegistrationMessage.uuid register_A_cpu8)
    = Some ([("cpu"%string, 4%N)], 100) /\
  exists c',
    HandleRegistrationRequest register_A_cpu8 with_A = Returns tt c' /\
    associated_resources_ c' !! string_generator (RegistrationMessage.uuid register_A_cpu8)
      = Some ([("cpu"%string, 4%N)], system_clock (clock_reads with_A)) /\
    (forall id, id <> string_generator (RegistrationMessage.uuid register_A_cpu8) ->
       associated_resources_ c' !! id = associated_resources_ with_A !! id) /\
    log c' = log with_A ++
      [(INFO, RegistrationAlreadyKnown (RegistrationMessage.uuid register_A_cpu8))].
Proof.
  split; [vm_compute; reflexivity|].
  apply (reregistration_keeps_descriptor with_A register_A_cpu8
           [("cpu"%string, 4%N)] 100).
  vm_compute; reflexivity.
Defined.

Lemma registration_inserts_new_record_witness :
  associated_resources_ initial !! string_generator (RegistrationMessage.uuid register_A_cpu4)
    = None /\
  exists c',
    HandleRegistrationRequest register_A_cpu4 initial = Returns tt c' /\
    associated_resources_ c' =
      <[string_generator (RegistrationMessage.uuid register_A_cpu4) :=
          (RegistrationMessage.res_desc register_A_cpu4, system_clock (clock_reads initial))]>
        (associated_resources_ initial) /\
    log c' = log initial ++
      [(INFO, RegisteringNewResource (RegistrationMessage.uuid register_A_cpu4))].
Proof.
  split; [vm_compute; reflexivity|].
  apply (registration_inserts_new_record initial register_A_cpu4).
  vm_compute; reflexivity.
Defined.

Lemma heartbeat_unknown_changes_nothing_witness :
  associated_resources_ with_A !! string_generator (HeartbeatMessage.uuid heartbeat_B)
    = None /\
  exists c',
    HandleHeartbeat heartbeat_B with_A = Returns tt c' /\
    associated_resources_ c' = associated_resources_ with_A /\
    log c' = log with_A ++
      [(WARNING, HeartbeatFromUnknown (HeartbeatMessage.uuid heartbeat_B))] /\
    exit_ c' = exit_ with_A /\ m_adapter_ c' = m_adapter_ with_A /\
    clock_reads c' = clock_reads with_A.
Proof.
  split; [vm_compute; reflexivity|].
  apply (heartbeat_unknown_changes_nothing with_A heartbeat_B).
  vm_compute; reflexivity.
Defined.

Lemma register_then_heartbeat_witness :
  associated_resources_ initial !! string_generator (RegistrationMessage.uuid register_A_cpu4)
    = None /\
  string_generator (HeartbeatMessage.uuid heartbeat_A) =
    string_generator (RegistrationMessage.uuid register_A_cpu4) /\
  exists c',
    (HandleRegistrationRequest register_A_cpu4;; HandleHeartbeat heartbeat_A) initial
      = Returns tt c' /\
    associated_resources_ c' !! string_generator (RegistrationMessage.uuid register_A_cpu4)
      = Some (RegistrationMessage.res_desc register_A_cpu4,
              system_clock (S (clock_reads initial))).
Proof.
  split; [vm_compute; reflexivity|]. split; [vm_compute; reflexivity|].
  apply (register_then_heartbeat initial register_A_cpu4 heartbeat_A);
    vm_compute; reflexivity.
Defined.

Lemma dispatch_without_known_kind_is_noop_witness :
  register_extn unknown_kind = None /\
  heartbeat_extn unknown_kind = None /\
  HandleIncomingMessage unknown_kind with_A = Returns tt with_A.
Proof.
  split; [reflexivity|]. split; [reflexivity|].
  apply (dispatch_without_known_kind_is_noop unknown_kind with_A); reflexivity.
Defined.

Lemma receive_error_is_dropped_witness :
  is_error connection_reset = true /\
  exists c',
    HandleRecv connection_reset 0 {| data := both_kinds |} with_A = Returns tt c' /\
    log c' = log with_A ++ [(WARNING, AsyncReceiveError (message connection_reset))] /\
    associated_resources_ c' = associated_resources_ with_A /\
    clock_reads c' = clock_reads with_A /\
    exit_ c' = exit_ with_A /\ m_adapter_ c' = m_adapter_ with_A /\
    (exit_ with_A = false ->
     forall later, exists c'',
       main_loop ([ReceiveCompleted connection_reset 0 {| data := both_kinds |}] :: later)
                 with_A
         = main_loop later c'' /\
       exit_ c'' = false /\
       associated_resources_ c'' = associated_resources_ with_A).
Proof.
  split; [reflexivity|].
  apply (receive_error_is_dropped connection_reset 0 {| data := both_kinds |} with_A).
  reflexivity.
Defined.

(** A message is dispatched during the first wait; during the second a
    signal arrives and then a message of an unknown kind; a job
    submission scheduled for a third wait is never seen. *)
Lemma exit_flag_ends_loop_at_next_test_witness :
  exit_ initial = false /\
  existsb (existsb sets_exit) [[MessageDelivered both_kinds]] = false /\
  existsb sets_exit [SignalRaised; MessageDelivered unknown_kind] = true /\
  exists c',
    Run ([[MessageDelivered both_kinds]] ++
         [SignalRaised; MessageDelivered unknown_kind] ::
         [[JobSubmitted a_job]]) initial = Returns tt c' /\
    Run ([[MessageDelivered both_kinds]] ++
         [SignalRaised; MessageDelivered unknown_kind] ::
         [[JobSubmitted a_job]]) initial =
      run_through ([[MessageDelivered both_kinds]] ++
                   [[SignalRaised; MessageDelivered unknown_kind]]) initial /\
    exit_ c' = true /\
    adapter_calls AdapterAwaitNextMessage c' =
      (adapter_calls AdapterAwaitNextMessage initial +
       length [[MessageDelivered both_kinds]] + 1)%nat /\
    adapter_calls StopListen c' =
      (adapter_calls StopListen initial +
       shutdown_calls [SignalRaised; MessageDelivered unknown_kind] + 1)%nat.
Proof.
  split; [reflexivity|]. split; [reflexivity|]. split; [reflexivity|].
  apply (exit_flag_ends_loop_at_next_test
           [[MessageDelivered both_kinds]]
           [SignalRaised; MessageDelivered unknown_kind]
           [[JobSubmitted a_job]] initial); reflexivity.
Defined.

(** C5 as worded also covers an identity that has a record.  There the
    registration keeps the older descriptor: A is known with [cpu:4],
    registers again with [cpu:8] at 150 and sends a heartbeat at 300; the
    record is [(cpu:4, 300)], not [(cpu:8, 300)]. *)
Lemma known_identity_keeps_descriptor_through_heartbeat :
  associated_resources_ with_A !! id_A = Some ([("cpu"%string, 4%N)], 100) /\
  exists c',
    (HandleRegistrationRequest register_A_cpu8;; HandleHeartbeat heartbeat_A) with_A
      = Returns tt c' /\
    associated_resources_ c' !! id_A = Some ([("cpu"%string, 4%N)], 300) /\
    associated_resources_ c' !! id_A
      <> Some (RegistrationMessage.res_desc register_A_cpu8, 300).
Proof.
  split; [vm_compute; reflexivity|].
  destruct (reregister_then_heartbeat with_A register_A_cpu8 heartbeat_A
              [("cpu"%string, 4%N)] 100) as (c' & Hrun & Hrec);
    [vm_compute; reflexivity|vm_compute; reflexivity|].
  assert (Hrec' : associated_resources_ c' !! id_A = Some ([("cpu"%string, 4%N)], 300))
    by exact Hrec.
  exists c'. split; [exact Hrun|]. split; [exact Hrec'|].
  intros Heq. pose proof (eq_trans (eq_sym Hrec') Heq) as Hx.
  discriminate Hx.
Qed.

(** C8 as the specification words it fails for an explicit call: a
    [Shutdown] call made while the loop waits stops the listener itself,
    and [Run] stops it again when it leaves the loop. *)
Lemma explicit_shutdown_stops_listening_twice :
  exists c',
    Run [[ShutdownCalled "operator request"]] initial = Returns tt c' /\
    m_adapter_ c' =
      [Listen "tcp://localhost:9998"; RegisterAsyncMessageReceiptCallback;
       AdapterAwaitNextMessage; StopListen; StopListen] /\
    adapter_calls StopListen c' = 2%nat /\
    adapter_calls StopListen c' <> 1%nat.
Proof.
  eexists. split; [reflexivity|]. split; [reflexivity|].
  split; [reflexivity|]. cbn. discriminate.
Qed.

(** With a signal in place of the call the listener is stopped once. *)
Example signal_stops_listening_once :
  exists c',
    Run [[SignalRaised]] initial = Returns tt c' /\
    m_adapter_ c' =
      [Listen "tcp://localhost:9998"; RegisterAsyncMessageReceiptCallback;
       AdapterAwaitNextMessage; StopListen].
Proof. eexists. split; reflexivity. Qed.

(** With nothing scheduled the coordinator stays in its first wait. *)
Example idle_coordinator_blocks :
  exists c', Run [] initial = Blocks c' /\
    m_adapter_ c' =
      [Listen "tcp://localhost:9998"; RegisterAsyncMessageReceiptCallback;
       AdapterAwaitNextMessage].
Proof. eexists. split; reflexivity. Qed.

End Instances.

(** * Helper facts on time stamps *)

Section StampHelpers.
Context `{E : Externals}.

Implicit Types (c : Coordinator).

Lemma stamps_from_clock_initial : stamps_from_clock initial.
Proof. intros id d t Hl. cbn in Hl. now rewrite lookup_empty in Hl. Qed.

Lemma stamps_from_clock_step c c' :
  stamps_from_clock c -> stamped_since c c' -> stamps_from_clock c'.
Proof.
  intros Hinv [Hk Hs] id d t Hl. destruct (Hs _ _ _ Hl) as [Hl0|(n & Hn & ->)].
  - destruct (Hinv _ _ _ Hl0) as (n & Hn & ->). exists n. split; [lia|reflexivity].
  - exists n. split; [lia|reflexivity].
Qed.

End StampHelpers.

(** * Further properties of the handlers *)

Section HandlerEffects.
Context `{E : Externals}.

Implicit Types (c : Coordinator) (id : ResourceID_t) (bm : BaseMessage).

(** X1.  A heartbeat for an identity that has the record [(d, t)] returns
    normally, reports [t] as the time the resource was last seen, and
    replaces the time stamp by the clock reading of this call: the
    descriptor stays, no other record changes, the clock is read once,
    the exit toggle and the adapter are left alone. *)
Theorem heartbeat_known_refreshes_timestamp c (msg : HeartbeatMessage.t) d t :
  associated_resources_ c !! string_generator (HeartbeatMessage.uuid msg) = Some (d, t) ->
  exists c',
    HandleHeartbeat msg c = Returns tt c' /\
    associated_resources_ c' !! string_generator (HeartbeatMessage.uuid msg)
      = Some (d, system_clock (clock_reads c)) /\
    (forall id, id <> string_generator (HeartbeatMessage.uuid msg) ->
       associated_resources_ c' !! id = associated_resources_ c !! id) /\
    log c' = log c ++ [(INFO, HeartbeatFrom (HeartbeatMessage.uuid msg) t)] /\
    clock_reads c' = S (clock_reads c) /\
    exit_ c' = exit_ c /\ m_adapter_ c' = m_adapter_ c.
Proof.
  intros Hl. rewrite (HandleHeartbeat_known _ _ _ Hl).
  eexists; split; [reflexivity|]. cbn. split; [|split].
  - now rewrite lookup_alter_eq, Hl.
  - intros id Hne. now rewrite lookup_alter_ne.
  - done.
Qed.

(** *** The log does not steer the handlers *)

Lemma HandleHeartbeat_log_frame (msg : HeartbeatMessage.t) c lines :
  exists c' added,
    HandleHeartbeat msg c = Returns tt c' /\
    log c' = log c ++ added /\ length added = 1%nat /\
    Forall (fun l => l.1 = INFO \/ l.1 = WARNING) added /\
    (clock_reads c <= clock_reads c' <= S (clock_reads c))%nat /\
    HandleHeartbeat msg (with_log lines c) = Returns tt (with_log (lines ++ added) c').
Proof.
  destruct (associated_resources_ c !! string_generator (HeartbeatMessage.uuid msg))
    as [p|] eqn:Hl.
  - rewrite (HandleHeartbeat_known _ _ _ Hl).
    rewrite (HandleHeartbeat_known (with_log lines c) _ p) by exact Hl.
    do 2 eexists. split; [reflexivity|]. cbn.
    split; [reflexivity|]. split; [reflexivity|].
    split; [repeat constructor; now left|]. split; [lia|reflexivity].
  - rewrite (HandleHeartbeat_unknown _ _ Hl).
    rewrite (HandleHeartbeat_unknown (with_log lines c)) by exact Hl.
    do 2 eexists. split; [reflexivity|]. cbn.
    split; [reflexivity|]. split; [reflexivity|].
    split; [repeat constructor; now right|]. split; [lia|reflexivity].
Qed.

Lemma HandleRegistrationRequest_log_frame (msg : RegistrationMessage.t) c lines :
  exists c' added,
    HandleRegistrationRequest msg c = Returns tt c' /\
    log c' = log c ++ added /\ length added = 1%nat /\
    Forall (fun l => l.1 = INFO \/ l.1 = WARNING) added /\
    clock_reads c' = S (clock_reads c) /\
    HandleRegistrationRequest msg (with_log lines c)
      = Returns tt (with_log (lines ++ added) c').
Proof.
  destruct (associated_resources_ c !! string_generator (RegistrationMessage.uuid msg))
    as [p|] eqn:Hl.
  - rewrite (HandleRegistrationRequest_known _ _ _ Hl).
    rewrite (HandleRegistrationRequest_known (with_log lines c) _ p) by exact Hl.
    do 2 eexists. split; [reflexivity|]. cbn.
    split; [reflexivity|]. split; [reflexivity|].
    split; [repeat constructor; now left|]. split; reflexivity.
  - rewrite (HandleRegistrationRequest_new _ _ Hl).
    rewrite (HandleRegistrationRequest_new (with_log lines c)) by exact Hl.
    do 2 eexists. split; [reflexivity|]. cbn.
    split; [reflexivity|]. split; [reflexivity|].
    split; [repeat constructor; now left|]. split; reflexivity.
Qed.

Lemma HandleIncomingMessage_log_frame bm c lines :
  exists c' added,
    HandleIncomingMessage bm c = Returns tt c' /\
    log c' = log c ++ added /\ length added = payloads bm /\
    Forall (fun l => l.1 = INFO \/ l.1 = WARNING) added /\
    (clock_reads c <= clock_reads c' <= clock_reads c + payloads bm)%nat /\
    (is_Some (register_extn bm) -> (clock_reads c < clock_reads c')%nat) /\
    HandleIncomingMessage bm (with_log lines c) = Returns tt (with_log (lines ++ added) c').
Proof.
  unfold HandleIncomingMessage, bind, payloads.
  destruct (register_extn bm) as [reg|]; destruct (heartbeat_extn bm) as [hb|].
  - destruct (HandleRegistrationRequest_log_frame reg c lines)
      as (c1 & a1 & -> & L1 & N1 & F1 & K1 & ->).
    destruct (HandleHeartbeat_log_frame hb c1 (lines ++ a1))
      as (c2 & a2 & -> & L2 & N2 & F2 & K2 & ->).
    exists c2, (a1 ++ a2). split; [reflexivity|].
    split; [now rewrite L2, L1, <- app_assoc|].
    split; [rewrite length_app; lia|].
    split; [now apply Forall_app|]. split; [lia|].
    split; [intros _; lia|]. now rewrite <- app_assoc.
  - destruct (HandleRegistrationRequest_log_frame reg c lines)
      as (c1 & a1 & -> & L1 & N1 & F1 & K1 & ->).
    exists c1, a1. cbn. split; [reflexivity|]. split; [exact L1|].
    split; [lia|]. split; [exact F1|]. split; [lia|].
    split; [intros _; lia|reflexivity].
  - unfold ret; cbv beta iota.
    destruct (HandleHeartbeat_log_frame hb c lines)
      as (c2 & a2 & -> & L2 & N2 & F2 & K2 & ->).
    exists c2, a2. split; [reflexivity|]. split; [exact L2|].
    split; [exact N2|]. split; [exact F2|]. split; [lia|].
    split; [intros [x Hx]; discriminate|reflexivity].
  - cbn. exists c, []. split; [reflexivity|]. rewrite !app_nil_r.
    split; [reflexivity|]. split; [reflexivity|]. split; [constructor|].
    split; [lia|]. split; [intros [x Hx]; discriminate|].
    now destruct c.
Qed.

(** X7.  A receive completion without error does to the registry, the clock,
    the exit toggle and the adapter what the direct delivery of the
    enveloped message does; its log is that of the delivery with the
    verbose "received" line put in front of the handlers' lines. *)
Theorem successful_receive_is_delivery error bytes_transferred (env : Envelope) c :
  is_error error = false ->
  exists c1 c2 added,
    HandleIncomingMessage (data env) c = Returns tt c1 /\
    HandleRecv error bytes_transferred env c = Returns tt c2 /\
    associated_resources_ c2 = associated_resources_ c1 /\
    clock_reads c2 = clock_reads c1 /\
    exit_ c2 = exit_ c1 /\ m_adapter_ c2 = m_adapter_ c1 /\
    log c1 = log c ++ added /\
    log c2 = log c ++ (VLOG 2, ReceivedAsync bytes_transferred env) :: added.
Proof.
  intros Hok. unfold HandleRecv. rewrite Hok. unfold bind; cbn.
  destruct (HandleIncomingMessage_log_frame (data env) c
              (log c ++ [(VLOG 2, ReceivedAsync bytes_transferred env)]))
    as (c1 & added & Hrun & Hlog & _ & _ & _ & _ & Hframe).
  exists c1. eexists. exists added. split; [exact Hrun|].
  split; [exact Hframe|]. cbn. rewrite <- app_assoc. done.
Qed.

End HandlerEffects.

(** * Further properties of event sequences *)

Section EventEffects.
Context `{E : Externals}.

Implicit Types (c : Coordinator) (id : ResourceID_t).

(** X8.  Only a signal or a [Shutdown] call sets the exit toggle, and nothing
    clears it: after any sequence of events it is set exactly when it
    was set before or such an event occurred.  The only adapter calls
    the events cause are the [StopListen] of the [Shutdown] calls, one
    each. *)
Theorem only_signal_or_shutdown_sets_exit (events : list Event) c :
  exists c',
    handle_events events c = Returns tt c' /\
    exit_ c' = exit_ c || existsb sets_exit events /\
    m_adapter_ c' = m_adapter_ c ++ repeat StopListen (shutdown_calls events).
Proof.
  destruct (handle_events_returns events c) as (c' & Hrun & _ & Hx & Ha).
  exists c'. done.
Qed.

(** X4.  An identity that has no record, and for which none of the events
    brings a registration, has no record afterwards: heartbeats, receive
    errors, signals, [Shutdown] calls and job submissions never create
    one, and neither do registrations of other identities. *)
Theorem unregistered_identity_gets_no_record (events : list Event) c id :
  id ∉ registered_ids events ->
  associated_resources_ c !! id = None ->
  exists c',
    handle_events events c = Returns tt c' /\
    associated_resources_ c' !! id = None.
Proof.
  intros Hno Hnone.
  destruct (handle_events_returns events c) as (c' & Hrun & _).
  exists c'. split; [exact Hrun|].
  apply handle_events_dom in Hrun.
  apply not_elem_of_dom. apply not_elem_of_dom in Hnone.
  rewrite Hrun. apply not_elem_of_union. done.
Qed.

(** *** Time stamps *)

Lemma stamped_since_refl c : stamped_since c c.
Proof. split; [lia|]. intros id d t Hl. now left. Qed.

Lemma stamped_since_same c c' :
  associated_resources_ c' = associated_resources_ c ->
  clock_reads c' = clock_reads c -> stamped_since c c'.
Proof.
  intros Hr Hk. split; [lia|]. intros id d t Hl. left. now rewrite <- Hr.
Qed.

Lemma stamped_since_trans c1 c2 c3 :
  stamped_since c1 c2 -> stamped_since c2 c3 -> stamped_since c1 c3.
Proof.
  intros [K12 S12] [K23 S23]. split; [lia|].
  intros id d t Hl. destruct (S23 _ _ _ Hl) as [Hl2|(n & Hn & ->)].
  - destruct (S12 _ _ _ Hl2) as [Hl1|(n & Hn & ->)]; [now left|].
    right. exists n. split; [lia|reflexivity].
  - right. exists n. split; [lia|reflexivity].
Qed.

Lemma stamped_since_alter c c' id :
  associated_resources_ c' =
    alter (fun q : ResourceDescriptor * Z => (q.1, system_clock (clock_reads c))) id
          (associated_resources_ c) ->
  clock_reads c' = S (clock_reads c) ->
  stamped_since c c'.
Proof.
  intros Hr Hk. split; [lia|]. intros id' d t Hl. rewrite Hr in Hl.
  destruct (decide (id = id')) as [->|Hne].
  - rewrite lookup_alter_eq in Hl.
    destruct (associated_resources_ c !! id') as [[d0 t0]|]; [|discriminate].
    cbn in Hl. inversion Hl; subst. right. exists (clock_reads c). split; [lia|done].
  - rewrite lookup_alter_ne in Hl by done. now left.
Qed.

Lemma stamped_since_insert c c' id d0 :
  associated_resources_ c' =
    <[id := (d0, system_clock (clock_reads c))]> (associated_resources_ c) ->
  clock_reads c' = S (clock_reads c) ->
  stamped_since c c'.
Proof.
  intros Hr Hk. split; [lia|]. intros id' d t Hl. rewrite Hr in Hl.
  destruct (decide (id = id')) as [->|Hne].
  - rewrite lookup_insert_eq in Hl. inversion Hl; subst.
    right. exists (clock_reads c). split; [lia|done].
  - rewrite lookup_insert_ne in Hl by done. now left.
Qed.

Lemma HandleHeartbeat_stamped (msg : HeartbeatMessage.t) c c' :
  HandleHeartbeat msg c = Returns tt c' -> stamped_since c c'.
Proof.
  intros Hrun.
  destruct (associated_resources_ c !! string_generator (HeartbeatMessage.uuid msg))
    as [p|] eqn:Hl.
  - rewrite (HandleHeartbeat_known _ _ _ Hl) in Hrun. inversion Hrun; subst.
    eapply stamped_since_alter; reflexivity.
  - rewrite (HandleHeartbeat_unknown _ _ Hl) in Hrun. inversion Hrun; subst.
    now apply stamped_since_same.
Qed.

Lemma HandleRegistrationRequest_stamped (msg : RegistrationMessage.t) c c' :
  HandleRegistrationRequest msg c = Returns tt c' -> stamped_since c c'.
Proof.
  intros Hrun.
  destruct (associated_resources_ c !! string_generator (RegistrationMessage.uuid msg))
    as [p|] eqn:Hl.
  - rewrite (HandleRegistrationRequest_known _ _ _ Hl) in Hrun. inversion Hrun; subst.
    eapply stamped_since_alter; reflexivity.
  - rewrite (HandleRegistrationRequest_new _ _ Hl) in Hrun. inversion Hrun; subst.
    eapply stamped_since_insert; reflexivity.
Qed.

Lemma HandleIncomingMessage_stamped (bm : BaseMessage) c c' :
  HandleIncomingMessage bm c = Returns tt c' -> stamped_since c c'.
Proof.
  unfold HandleIncomingMessage, bind. intros Hrun.
  destruct (register_extn bm) as [reg|].
  - destruct (HandleRegistrationRequest_returns c reg) as [c1 H1].
    rewrite H1 in Hrun. apply HandleRegistrationRequest_stamped in H1.
    destruct (heartbeat_extn bm) as [hb|].
    + apply HandleHeartbeat_stamped in Hrun. eapply stamped_since_trans; eauto.
    + now inversion Hrun; subst.
  - unfold ret in Hrun; cbv beta iota in Hrun.
    destruct (heartbeat_extn bm) as [hb|].
    + now apply HandleHeartbeat_stamped in Hrun.
    + inversion Hrun; subst. apply stamped_since_refl.
Qed.

Lemma handle_event_stamped (e : Event) c c' :
  handle_event e c = Returns tt c' -> stamped_since c c'.
Proof.
  intros Hrun. destruct e as [bm|error n env| |reason|jd]; cbn in Hrun.
  - now apply HandleIncomingMessage_stamped in Hrun.
  - unfold HandleRecv in Hrun. destruct (is_error error).
    + inversion Hrun; subst. now apply stamped_since_same.
    + unfold bind in Hrun; cbn in Hrun.
      apply HandleIncomingMessage_stamped in Hrun.
      eapply stamped_since_trans; [|exact Hrun]. now apply stamped_since_same.
  - inversion Hrun; subst. now apply stamped_since_same.
  - inversion Hrun; subst. now apply stamped_since_same.
  - inversion Hrun; subst. now apply stamped_since_same.
Qed.

Lemma handle_events_stamped (events : list Event) c c' :
  handle_events events c = Returns tt c' -> stamped_since c c'.
Proof.
  revert c. induction events as [|e rest IH]; intros c Hrun.
  - inversion Hrun; subst. apply stamped_since_refl.
  - cbn [handle_events] in Hrun. unfold bind in Hrun.
    destruct (handle_event_returns e c) as (c1 & He & _).
    rewrite He in Hrun. apply handle_event_stamped in He. apply IH in Hrun.
    eapply stamped_since_trans; eauto.
Qed.

(** X9.  If every last-seen time in the registry is a value the clock has
    returned before, this is still so after any sequence of events: the
    handlers store nothing but readings of [GetCurrentTimestamp]. *)
Theorem stamps_stay_clock_readings (events : list Event) c :
  stamps_from_clock c ->
  exists c', handle_events events c = Returns tt c' /\ stamps_from_clock c'.
Proof.
  intros Hinv. destruct (handle_events_returns events c) as (c' & Hrun & _).
  exists c'. split; [exact Hrun|].
  eapply stamps_from_clock_step; [exact Hinv|].
  eapply handle_events_stamped. exact Hrun.
Qed.

(** X10.  With a clock that never runs backwards, the last-seen time of an
    identity never decreases, whatever events are handled: a record
    [(d, t)] whose stamp came from the clock becomes [(d, t')] with
    [t <= t']. *)
Theorem last_seen_never_decreases (events : list Event) c id d t :
  clock_monotone ->
  stamps_from_clock c ->
  associated_resources_ c !! id = Some (d, t) ->
  exists c' t',
    handle_events events c = Returns tt c' /\
    associated_resources_ c' !! id = Some (d, t') /\
    t <= t'.
Proof.
  intros Hmono Hinv Hl.
  destruct (handle_events_returns events c) as (c' & Hrun & Hk & _).
  destruct (Hk _ _ _ Hl) as [t' Hl'].
  exists c', t'. split; [exact Hrun|]. split; [exact Hl'|].
  destruct (handle_events_stamped _ _ _ Hrun) as [_ Hs].
  destruct (Hs _ _ _ Hl') as [Hl0|(n & Hn & ->)].
  - rewrite Hl in Hl0. inversion Hl0; subst. lia.
  - destruct (Hinv _ _ _ Hl) as (m & Hm & ->). apply Hmono. lia.
Qed.

End EventEffects.

(** * Further properties of the main loop *)

Section RunOutcomes.
Context `{E : Externals}.

Implicit Types (c : Coordinator).

Lemma wait_trace_no_shutdown cycles :
  existsb (existsb sets_exit) cycles = false ->
  wait_trace cycles = repeat AdapterAwaitNextMessage (length cycles).
Proof.
  induction cycles as [|d cycles IH]; intros Hno; [done|].
  cbn in Hno. apply orb_false_elim in Hno as [Hd Hrest].
  cbn [wait_trace flat_map]. rewrite shutdown_calls_none by done.
  cbn. f_equal. now apply IH.
Qed.

Lemma main_loop_blocks schedule c :
  exit_ c = false ->
  existsb (existsb sets_exit) schedule = false ->
  exists c0 c',
    waits schedule c = Returns tt c0 /\
    main_loop schedule c = Blocks c' /\
    exit_ c0 = false /\
    associated_resources_ c' = associated_resources_ c0 /\
    exit_ c' = false /\
    m_adapter_ c' = m_adapter_ c0 ++ [AdapterAwaitNextMessage].
Proof.
  revert c. induction schedule as [|d later IH]; intros c Hx Hno.
  - exists c. eexists. split; [reflexivity|]. cbn [main_loop]. rewrite Hx.
    split; [reflexivity|]. cbn. done.
  - cbn in Hno. apply orb_false_elim in Hno as [Hd Hrest].
    rewrite main_loop_cons by done. rewrite waits_cons. unfold bind.
    destruct (AwaitNextMessage_returns d (add_log (VLOG 2) HelloFromMainLoop c))
      as (c1 & -> & X1 & _).
    cbn in X1. rewrite Hx, Hd in X1.
    now apply IH.
Qed.

(** X12.  As long as nothing sets the exit toggle [Run] does not return: with
    a schedule in which no signal and no [Shutdown] call occurs it
    handles every scheduled event, enters the adapter's wait once more
    than the schedule has waits, and stays there, never having called
    [StopListen]. *)
Theorem Run_blocks_while_exit_clear schedule c :
  exit_ c = false ->
  existsb (existsb sets_exit) schedule = false ->
  exists c0 c',
    (modify (add_adapter_call (Listen FLAGS_listen_uri));;
     modify (add_adapter_call RegisterAsyncMessageReceiptCallback);;
     waits schedule) c = Returns tt c0 /\
    Run schedule c = Blocks c' /\
    associated_resources_ c' = associated_resources_ c0 /\
    exit_ c' = false /\
    adapter_calls StopListen c' = adapter_calls StopListen c /\
    adapter_calls AdapterAwaitNextMessage c' =
      (adapter_calls AdapterAwaitNextMessage c + length schedule + 1)%nat.
Proof.
  intros Hx Hno. unfold Run, bind; cbn.
  set (c_l := add_adapter_call RegisterAsyncMessageReceiptCallback
                (add_adapter_call (Listen FLAGS_listen_uri) c)).
  destruct (main_loop_blocks schedule c_l Hx Hno)
    as (c0 & c' & Hw & -> & _ & Hr & Hx' & Ha).
  destruct (waits_returns schedule c_l) as (c0' & Hw' & _ & Ha0).
  rewrite Hw in Hw'. inversion Hw'; subst c0'.
  exists c0, c'. split; [exact Hw|]. split; [reflexivity|].
  split; [exact Hr|]. split; [exact Hx'|].
  unfold adapter_calls. rewrite Ha, Ha0, wait_trace_no_shutdown by done.
  subst c_l. cbn. rewrite !count_occ_app. cbn.
  assert (Hrep : forall n,
    count_occ AdapterCall_eq_dec (repeat AdapterAwaitNextMessage n) StopListen = 0%nat /\
    count_occ AdapterCall_eq_dec (repeat AdapterAwaitNextMessage n)
      AdapterAwaitNextMessage = n).
  { induction n as [|n [IH1 IH2]]; [done|]. cbn. now rewrite IH2. }
  destruct (Hrep (length schedule)) as [-> ->]. split; lia.
Qed.

(** X13.  The exit toggle is static and nothing resets it: when [Run] is
    entered with the toggle already set, as after an earlier [Shutdown]
    or signal, it binds the listener, registers the callback and shuts
    down at once.  It enters no wait and handles none of the events
    that were to come; the registry is as it was. *)
Theorem Run_with_exit_set_enters_no_wait schedule c :
  exit_ c = true ->
  exists c',
    Run schedule c = Returns tt c' /\
    m_adapter_ c' =
      m_adapter_ c ++ [Listen FLAGS_listen_uri; RegisterAsyncMessageReceiptCallback;
                       StopListen] /\
    log c' = log c ++ [(INFO, ShuttingDown "dropped out of main loop")] /\
    associated_resources_ c' = associated_resources_ c /\
    clock_reads c' = clock_reads c /\
    exit_ c' = true.
Proof.
  intros Hx. unfold Run, bind; cbn.
  rewrite main_loop_exit_set by exact Hx.
  eexists; split; [reflexivity|]. cbn. rewrite <- !app_assoc. done.
Qed.

(** X14.  The order of the calls [Run] makes on the adapter, when the exit
    toggle is set during the wait [during] and not before: [Listen] on
    the configured address first, then the registration of the receipt
    callback, then one wait per loop iteration, with the [StopListen] of
    any [Shutdown] call made during the last wait, and [StopListen] as
    the last call of all. *)
Theorem Run_adapter_protocol pre during post c :
  exit_ c = false ->
  existsb (existsb sets_exit) pre = false ->
  existsb sets_exit during = true ->
  exists c',
    Run (pre ++ during :: post) c = Returns tt c' /\
    m_adapter_ c' =
      m_adapter_ c ++
      Listen FLAGS_listen_uri :: RegisterAsyncMessageReceiptCallback ::
      repeat AdapterAwaitNextMessage (length pre) ++
      AdapterAwaitNextMessage :: repeat StopListen (shutdown_calls during) ++
      [StopListen].
Proof.
  intros Hx Hpre Hduring. unfold Run, bind; cbn.
  rewrite main_loop_until_exit by done.
  destruct (waits_returns (pre ++ [during])
              (add_adapter_call RegisterAsyncMessageReceiptCallback
                 (add_adapter_call (Listen FLAGS_listen_uri) c)))
    as (c1 & -> & _ & A1).
  eexists; split; [reflexivity|]. cbn. rewrite A1. cbn.
  unfold wait_trace. rewrite flat_map_app. fold (wait_trace pre).
  rewrite wait_trace_no_shutdown by done. cbn.
  rewrite app_nil_r, <- !app_assoc. cbn. reflexivity.
Qed.

End RunOutcomes.

(** * The handlers read only the registry and the clock *)

Section Core.
Context `{E : Externals}.

Implicit Types (c : Coordinator).

Lemma same_core_refl c : same_core c c.
Proof. done. Qed.

Lemma same_core_trans c1 c2 c3 : same_core c1 c2 -> same_core c2 c3 -> same_core c1 c3.
Proof. intros (R12 & K12 & X12) (R23 & K23 & X23). repeat split; congruence. Qed.

Lemma same_core_sym c1 c2 : same_core c1 c2 -> same_core c2 c1.
Proof. intros (R12 & K12 & X12). repeat split; congruence. Qed.

Lemma HandleHeartbeat_core (msg : HeartbeatMessage.t) c1 c2 :
  same_core c1 c2 ->
  exists c1' c2',
    HandleHeartbeat msg c1 = Returns tt c1' /\
    HandleHeartbeat msg c2 = Returns tt c2' /\ same_core c1' c2'.
Proof.
  intros (Hr & Hk & Hx).
  destruct (associated_resources_ c1 !! string_generator (HeartbeatMessage.uuid msg))
    as [p|] eqn:Hl1.
  - assert (Hl2 := Hl1). rewrite Hr in Hl2.
    rewrite (HandleHeartbeat_known _ _ _ Hl1), (HandleHeartbeat_known _ _ _ Hl2).
    do 2 eexists. split; [reflexivity|]. split; [reflexivity|].
    split; [|split]; cbn; [now rewrite Hr, Hk|now rewrite Hk|exact Hx].
  - assert (Hl2 := Hl1). rewrite Hr in Hl2.
    rewrite (HandleHeartbeat_unknown _ _ Hl1), (HandleHeartbeat_unknown _ _ Hl2).
    do 2 eexists. split; [reflexivity|]. split; [reflexivity|]. done.
Qed.

Lemma HandleRegistrationRequest_core (msg : RegistrationMessage.t) c1 c2 :
  same_core c1 c2 ->
  exists c1' c2',
    HandleRegistrationRequest msg c1 = Returns tt c1' /\
    HandleRegistrationRequest msg c2 = Returns tt c2' /\ same_core c1' c2'.
Proof.
  intros (Hr & Hk & Hx).
  destruct (associated_resources_ c1 !! string_generator (RegistrationMessage.uuid msg))
    as [p|] eqn:Hl1.
  - assert (Hl2 := Hl1). rewrite Hr in Hl2.
    rewrite (HandleRegistrationRequest_known _ _ _ Hl1),
            (HandleRegistrationRequest_known _ _ _ Hl2).
    do 2 eexists. split; [reflexivity|]. split; [reflexivity|].
    split; [|split]; cbn; [now rewrite Hr, Hk|now rewrite Hk|exact Hx].
  - assert (Hl2 := Hl1). rewrite Hr in Hl2.
    rewrite (HandleRegistrationRequest_new _ _ Hl1),
            (HandleRegistrationRequest_new _ _ Hl2).
    do 2 eexists. split; [reflexivity|]. split; [reflexivity|].
    split; [|split]; cbn; [now rewrite Hr, Hk|now rewrite Hk|exact Hx].
Qed.

Lemma HandleIncomingMessage_core (bm : BaseMessage) c1 c2 :
  same_core c1 c2 ->
  exists c1' c2',
    HandleIncomingMessage bm c1 = Returns tt c1' /\
    HandleIncomingMessage bm c2 = Returns tt c2' /\ same_core c1' c2'.
Proof.
  intros Hs. unfold HandleIncomingMessage, bind.
  assert (exists m1 m2,
    match register_extn bm with
    | Some msg => HandleRegistrationRequest msg
    | None => ret tt
    end c1 = Returns tt m1 /\
    match register_extn bm with
    | Some msg => HandleRegistrationRequest msg
    | None => ret tt
    end c2 = Returns tt m2 /\ same_core m1 m2) as (m1 & m2 & -> & -> & Hm).
  { destruct (register_extn bm) as [reg|].
    - now apply HandleRegistrationRequest_core.
    - exists c1, c2. done. }
  destruct (heartbeat_extn bm) as [hb|].
  - now apply HandleHeartbeat_core.
  - exists m1, m2. done.
Qed.

Lemma handle_event_core (e : Event) c1 c2 :
  same_core c1 c2 ->
  exists c1' c2',
    handle_event e c1 = Returns tt c1' /\
    handle_event e c2 = Returns tt c2' /\ same_core c1' c2'.
Proof.
  intros Hs. destruct e as [bm|error n env| |reason|jd]; cbn [handle_event].
  - now apply HandleIncomingMessage_core.
  - unfold HandleRecv. destruct (is_error error).
    + do 2 eexists. split; [reflexivity|]. split; [reflexivity|]. exact Hs.
    + unfold bind; cbn. apply HandleIncomingMessage_core. exact Hs.
  - do 2 eexists. split; [reflexivity|]. split; [reflexivity|].
    destruct Hs as (Hr & Hk & Hx). done.
  - do 2 eexists. split; [reflexivity|]. split; [reflexivity|].
    destruct Hs as (Hr & Hk & Hx). done.
  - do 2 eexists. split; [reflexivity|]. split; [reflexivity|]. exact Hs.
Qed.

Lemma handle_events_core (events : list Event) c1 c2 :
  same_core c1 c2 ->
  exists c1' c2',
    handle_events events c1 = Returns tt c1' /\
    handle_events events c2 = Returns tt c2' /\ same_core c1' c2'.
Proof.
  revert c1 c2. induction events as [|e rest IH]; intros c1 c2 Hs.
  - exists c1, c2. done.
  - cbn [handle_events]. unfold bind.
    destruct (handle_event_core e c1 c2 Hs) as (m1 & m2 & -> & -> & Hm).
    now apply IH.
Qed.

Lemma handle_events_app (a b : list Event) c :
  handle_events (a ++ b) c = (handle_events a;; handle_events b) c.
Proof.
  revert c. induction a as [|e a IH]; intros c; [reflexivity|].
  cbn [app handle_events]. unfold bind.
  destruct (handle_event e c) as [[] c1|c1|c1]; [|reflexivity|reflexivity].
  rewrite IH. reflexivity.
Qed.

(** The waits of the loop do to the registry and the clock what the
    plain sequence of their events does. *)
Lemma waits_core (cycles : list (list Event)) c1 c2 :
  same_core c1 c2 ->
  exists c1' c2',
    waits cycles c1 = Returns tt c1' /\
    handle_events (concat cycles) c2 = Returns tt c2' /\ same_core c1' c2'.
Proof.
  revert c1 c2. induction cycles as [|d later IH]; intros c1 c2 Hs.
  - exists c1, c2. done.
  - rewrite waits_cons. cbn [concat]. rewrite handle_events_app.
    unfold AwaitNextMessage, enter_wait, bind; cbn.
    destruct (handle_events_core d
                (add_adapter_call AdapterAwaitNextMessage
                   (add_log (VLOG 2) WaitingForNextMessage
                      (add_log (VLOG 2) HelloFromMainLoop c1))) c2)
      as (m1 & m2 & -> & -> & Hm).
    { destruct Hs as (Hr & Hk & Hx). done. }
    now apply IH.
Qed.

End Core.

Section Lifetime.
Context `{E : Externals}.

Implicit Types (c : Coordinator) (id : ResourceID_t).

(** X3.  Once an identity has a record it stays known, whatever events are
    handled afterwards: a later registration for it is logged as already
    known, never as new, and keeps the descriptor; a later heartbeat is
    logged with its last-seen time, never as coming from an unknown
    resource. *)
Theorem registered_identity_stays_known (events : list Event) c
    (reg : RegistrationMessage.t) (hb : HeartbeatMessage.t) id d t :
  associated_resources_ c !! id = Some (d, t) ->
  string_generator (RegistrationMessage.uuid reg) = id ->
  string_generator (HeartbeatMessage.uuid hb) = id ->
  exists c1 t1 c2 c3,
    handle_events events c = Returns tt c1 /\
    associated_resources_ c1 !! id = Some (d, t1) /\
    HandleRegistrationRequest reg c1 = Returns tt c2 /\
    log c2 = log c1 ++ [(INFO, RegistrationAlreadyKnown (RegistrationMessage.uuid reg))] /\
    associated_resources_ c2 !! id = Some (d, system_clock (clock_reads c1)) /\
    HandleHeartbeat hb c1 = Returns tt c3 /\
    log c3 = log c1 ++ [(INFO, HeartbeatFrom (HeartbeatMessage.uuid hb) t1)] /\
    associated_resources_ c3 !! id = Some (d, system_clock (clock_reads c1)).
Proof.
  intros Hl Hreg Hhb.
  destruct (handle_events_returns events c) as (c1 & Hrun & Hk & _).
  destruct (Hk _ _ _ Hl) as [t1 Hl1].
  exists c1, t1. subst id.
  assert (Hl1' := Hl1). rewrite <- Hhb in Hl1'.
  rewrite (HandleRegistrationRequest_known _ _ _ Hl1).
  rewrite (HandleHeartbeat_known _ _ _ Hl1').
  do 2 eexists. split; [exact Hrun|]. split; [exact Hl1|].
  split; [reflexivity|]. cbn. split; [reflexivity|].
  split; [now rewrite lookup_alter_eq, Hl1|].
  split; [reflexivity|]. split; [reflexivity|].
  cbn. now rewrite <- Hhb, lookup_alter_eq, Hl1'.
Qed.

End Lifetime.

Section RunAsEvents.
Context `{E : Externals}.

Implicit Types (c : Coordinator).

(** X15.  Where the waits of the loop begin and end does not matter to the
    registry: when [Run] returns after the waits [pre] and [during], its
    registry and its clock are those reached by handling the events of
    these waits one after the other, with no loop around them. *)
Theorem Run_registry_is_that_of_its_events pre during post c :
  exit_ c = false ->
  existsb (existsb sets_exit) pre = false ->
  existsb sets_exit during = true ->
  exists c' c'',
    Run (pre ++ during :: post) c = Returns tt c' /\
    handle_events (concat (pre ++ [during])) c = Returns tt c'' /\
    associated_resources_ c' = associated_resources_ c'' /\
    clock_reads c' = clock_reads c''.
Proof.
  intros Hx Hpre Hduring. unfold Run, bind; cbn.
  rewrite main_loop_until_exit by done.
  destruct (waits_core (pre ++ [during])
              (add_adapter_call RegisterAsyncMessageReceiptCallback
                 (add_adapter_call (Listen FLAGS_listen_uri) c)) c)
    as (c1 & c'' & -> & Hev & Hr & Hk & _); [done|].
  eexists. exists c''. split; [reflexivity|]. split; [exact Hev|]. cbn. done.
Qed.

End RunAsEvents.

(** * The further properties at work *)

Section MoreInstances.
Import Demo.
#[local] Existing Instance Demo.externals.

Lemma heartbeat_known_refreshes_timestamp_witness :
  associated_resources_ with_A !! string_generator (HeartbeatMessage.uuid heartbeat_A)
    = Some ([("cpu"%string, 4%N)], 100) /\
  exists c',
    HandleHeartbeat heartbeat_A with_A = Returns tt c' /\
    associated_resources_ c' !! string_generator (HeartbeatMessage.uuid heartbeat_A)
      = Some ([("cpu"%string, 4%N)], system_clock (clock_reads with_A)) /\
    (forall id, id <> string_generator (HeartbeatMessage.uuid heartbeat_A) ->
       associated_resources_ c' !! id = associated_resources_ with_A !! id) /\
    log c' = log with_A ++ [(INFO, HeartbeatFrom (HeartbeatMessage.uuid heartbeat_A) 100)] /\
    clock_reads c' = S (clock_reads with_A) /\
    exit_ c' = exit_ with_A /\ m_adapter_ c' = m_adapter_ with_A.
Proof.
  split; [vm_compute; reflexivity|].
  apply (heartbeat_known_refreshes_timestamp with_A heartbeat_A
           [("cpu"%string, 4%N)] 100).
  vm_compute; reflexivity.
Defined.

Lemma successful_receive_is_delivery_witness :
  is_error Steady.success = false /\
  exists c1 c2 added,
    HandleIncomingMessage (data {| data := both_kinds |}) with_A = Returns tt c1 /\
    HandleRecv Steady.success 42 {| data := both_kinds |} with_A = Returns tt c2 /\
    associated_resources_ c2 = associated_resources_ c1 /\
    clock_reads c2 = clock_reads c1 /\
    exit_ c2 = exit_ c1 /\ m_adapter_ c2 = m_adapter_ c1 /\
    log c1 = log with_A ++ added /\
    log c2 = log with_A ++
             (VLOG 2, ReceivedAsync 42 {| data := both_kinds |}) :: added.
Proof.
  split; [reflexivity|].
  apply (successful_receive_is_delivery Steady.success 42 {| data := both_kinds |} with_A).
  reflexivity.
Defined.

Lemma Run_blocks_while_exit_clear_witness :
  exit_ initial = false /\
  existsb (existsb sets_exit) [[MessageDelivered both_kinds]; []] = false /\
  exists c0 c',
    (modify (add_adapter_call (Listen FLAGS_listen_uri));;
     modify (add_adapter_call RegisterAsyncMessageReceiptCallback);;
     waits [[MessageDelivered both_kinds]; []]) initial = Returns tt c0 /\
    Run [[MessageDelivered both_kinds]; []] initial = Blocks c' /\
    associated_resources_ c' = associated_resources_ c0 /\
    exit_ c' = false /\
    adapter_calls StopListen c' = adapter_calls StopListen initial /\
    adapter_calls AdapterAwaitNextMessage c' =
      (adapter_calls AdapterAwaitNextMessage initial +
       length [[MessageDelivered both_kinds]; []] + 1)%nat.
Proof.
  split; [reflexivity|]. split; [reflexivity|].
  apply (Run_blocks_while_exit_clear [[MessageDelivered both_kinds]; []] initial);
    reflexivity.
Defined.

Lemma Run_with_exit_set_enters_no_wait_witness :
  exit_ (set_exit_ true with_A) = true /\
  exists c',
    Run [[MessageDelivered both_kinds]] (set_exit_ true with_A) = Returns tt c' /\
    m_adapter_ c' =
      m_adapter_ (set_exit_ true with_A) ++
      [Listen FLAGS_listen_uri; RegisterAsyncMessageReceiptCallback; StopListen] /\
    log c' = log (set_exit_ true with_A) ++
             [(INFO, ShuttingDown "dropped out of main loop")] /\
    associated_resources_ c' = associated_resources_ (set_exit_ true with_A) /\
    clock_reads c' = clock_reads (set_exit_ true with_A) /\
    exit_ c' = true.
Proof.
  split; [reflexivity|].
  apply (Run_with_exit_set_enters_no_wait [[MessageDelivered both_kinds]]
           (set_exit_ true with_A)).
  reflexivity.
Defined.

Lemma Run_adapter_protocol_witness :
  exit_ initial = false /\
  existsb (existsb sets_exit) [[MessageDelivered both_kinds]] = false /\
  existsb sets_exit [ShutdownCalled "operator request"; SignalRaised] = true /\
  exists c',
    Run ([[MessageDelivered both_kinds]] ++
         [ShutdownCalled "operator request"; SignalRaised] :: [[JobSubmitted a_job]])
        initial = Returns tt c' /\
    m_adapter_ c' =
      m_adapter_ initial ++
      Listen FLAGS_listen_uri :: RegisterAsyncMessageReceiptCallback ::
      repeat AdapterAwaitNextMessage (length [[MessageDelivered both_kinds]]) ++
      AdapterAwaitNextMessage ::
      repeat StopListen
        (shutdown_calls [ShutdownCalled "operator request"; SignalRaised]) ++
      [StopListen].
Proof.
  split; [reflexivity|]. split; [reflexivity|]. split; [reflexivity|].
  apply (Run_adapter_protocol [[MessageDelivered both_kinds]]
           [ShutdownCalled "operator request"; SignalRaised]
           [[JobSubmitted a_job]] initial); reflexivity.
Defined.

End MoreInstances.

Section SteadyInstances.
#[local] Existing Instance Steady.externals.

Lemma stamps_stay_clock_readings_witness :
  stamps_from_clock initial /\
  exists c',
    handle_events Steady.heartbeat_B_then_register_A initial = Returns tt c' /\
    stamps_from_clock c'.
Proof.
  split; [apply stamps_from_clock_initial|].
  apply (stamps_stay_clock_readings Steady.heartbeat_B_then_register_A initial).
  apply stamps_from_clock_initial.
Defined.

Lemma last_seen_never_decreases_witness :
  clock_monotone /\
  stamps_from_clock Steady.with_A /\
  associated_resources_ Steady.with_A !! Demo.id_A = Some ([("cpu"%string, 4%N)], 100) /\
  exists c' t',
    handle_events [MessageDelivered Steady.heartbeat_of_A; SignalRaised;
                   MessageDelivered Steady.registration_of_A] Steady.with_A
      = Returns tt c' /\
    associated_resources_ c' !! Demo.id_A = Some ([("cpu"%string, 4%N)], t') /\
    100 <= t'.
Proof.
  assert (Hmono : clock_monotone) by (intros m n Hmn; cbn; lia).
  assert (Hinv : stamps_from_clock Steady.with_A).
  { eapply stamps_from_clock_step; [apply stamps_from_clock_initial|].
    apply (HandleRegistrationRequest_stamped Steady.register_A). reflexivity. }
  assert (Hl : associated_resources_ Steady.with_A !! Demo.id_A
               = Some ([("cpu"%string, 4%N)], 100)) by (vm_compute; reflexivity).
  split; [exact Hmono|]. split; [exact Hinv|]. split; [exact Hl|].
  exact (last_seen_never_decreases
           [MessageDelivered Steady.heartbeat_of_A; SignalRaised;
            MessageDelivered Steady.registration_of_A]
           Steady.with_A Demo.id_A [("cpu"%string, 4%N)] 100 Hmono Hinv Hl).
Defined.

Lemma unregistered_identity_gets_no_record_witness :
  (Demo.id_B ∉ registered_ids Steady.heartbeat_B_then_register_A) /\
  associated_resources_ initial !! Demo.id_B = None /\
  exists c',
    handle_events Steady.heartbeat_B_then_register_A initial = Returns tt c' /\
    associated_resources_ c' !! Demo.id_B = None.
Proof.
  assert (Hno : Demo.id_B ∉ registered_ids Steady.heartbeat_B_then_register_A).
  { cbv [registered_ids registered_by registered_by_message
         Steady.heartbeat_B_then_register_A Steady.registration_of_A
         register_extn fmap list_fmap].
    cbn [union_list foldr]. rewrite union_empty_l_L, union_empty_r_L.
    apply not_elem_of_singleton. vm_compute. discriminate. }
  assert (Hnone : associated_resources_ initial !! Demo.id_B = None)
    by apply lookup_empty.
  split; [exact Hno|]. split; [exact Hnone|].
  exact (unregistered_identity_gets_no_record
           Steady.heartbeat_B_then_register_A initial Demo.id_B Hno Hnone).
Defined.

End SteadyInstances.

Section LifetimeInstances.
Import Demo.
#[local] Existing Instance Demo.externals.

Lemma registered_identity_stays_known_witness :
  associated_resources_ with_A !! id_A = Some ([("cpu"%string, 4%N)], 100) /\
  string_generator (RegistrationMessage.uuid register_A_cpu8) = id_A /\
  string_generator (HeartbeatMessage.uuid heartbeat_A) = id_A /\
  exists c1 t1 c2 c3,
    handle_events [MessageDelivered unknown_kind; SignalRaised] with_A = Returns tt c1 /\
    associated_resources_ c1 !! id_A = Some ([("cpu"%string, 4%N)], t1) /\
    HandleRegistrationRequest register_A_cpu8 c1 = Returns tt c2 /\
    log c2 = log c1 ++
      [(INFO, RegistrationAlreadyKnown (RegistrationMessage.uuid register_A_cpu8))] /\
    associated_resources_ c2 !! id_A
      = Some ([("cpu"%string, 4%N)], system_clock (clock_reads c1)) /\
    HandleHeartbeat heartbeat_A c1 = Returns tt c3 /\
    log c3 = log c1 ++ [(INFO, HeartbeatFrom (HeartbeatMessage.uuid heartbeat_A) t1)] /\
    associated_resources_ c3 !! id_A
      = Some ([("cpu"%string, 4%N)], system_clock (clock_reads c1)).
Proof.
  split; [vm_compute; reflexivity|]. split; [reflexivity|]. split; [reflexivity|].
  apply (registered_identity_stays_known [MessageDelivered unknown_kind; SignalRaised]
           with_A register_A_cpu8 heartbeat_A id_A [("cpu"%string, 4%N)] 100);
    [vm_compute; reflexivity|reflexivity|reflexivity].
Defined.

Lemma Run_registry_is_that_of_its_events_witness :
  exit_ initial = false /\
  existsb (existsb sets_exit) [[MessageDelivered both_kinds]] = false /\
  existsb sets_exit [SignalRaised; MessageDelivered unknown_kind] = true /\
  exists c' c'',
    Run ([[MessageDelivered both_kinds]] ++
         [SignalRaised; MessageDelivered unknown_kind] :: [[JobSubmitted a_job]])
        initial = Returns tt c' /\
    handle_events (concat ([[MessageDelivered both_kinds]] ++
                           [[SignalRaised; MessageDelivered unknown_kind]]))
                  initial = Returns tt c'' /\
    associated_resources_ c' = associated_resources_ c'' /\
    clock_reads c' = clock_reads c''.
Proof.
  split; [reflexivity|]. split; [reflexivity|]. split; [reflexivity|].
  apply (Run_registry_is_that_of_its_events
           [[MessageDelivered both_kinds]]
           [SignalRaised; MessageDelivered unknown_kind]
           [[JobSubmitted a_job]] initial); reflexivity.
Defined.

End LifetimeInstances.

(** * The handlers with the parser's exception *)

Section ExnHandlers.
Context `{E : Externals} `{G : UuidGrammar}.

Implicit Types (c : Coordinator) (bm : BaseMessage).

(** On a string the parser accepts, a handler of [Exn] is the handler
    embedded first; on any other it throws at once. *)
Lemma Exn_HandleHeartbeat_accepted (msg : HeartbeatMessage.t) c :
  well_formed (HeartbeatMessage.uuid msg) = true ->
  Exn.HandleHeartbeat msg c = Exn.Finishes (HandleHeartbeat msg c).
Proof.
  intros Hwf.
  unfold Exn.HandleHeartbeat, Exn.bind, Exn.gen, Exn.lift,
         HandleHeartbeat, bind, FindOrNull, get.
  rewrite Hwf.
  destruct (associated_resources_ c !! string_generator (HeartbeatMessage.uuid msg));
    reflexivity.
Qed.

Lemma Exn_HandleHeartbeat_refused (msg : HeartbeatMessage.t) c :
  well_formed (HeartbeatMessage.uuid msg) = false ->
  Exn.HandleHeartbeat msg c = Exn.Throws c.
Proof.
  intros Hwf. unfold Exn.HandleHeartbeat, Exn.bind, Exn.gen. now rewrite Hwf.
Qed.

Lemma Exn_HandleRegistrationRequest_accepted (msg : RegistrationMessage.t) c :
  well_formed (RegistrationMessage.uuid msg) = true ->
  Exn.HandleRegistrationRequest msg c = Exn.Finishes (HandleRegistrationRequest msg c).
Proof.
  intros Hwf.
  unfold Exn.HandleRegistrationRequest, Exn.bind, Exn.gen, Exn.lift,
         HandleRegistrationRequest, bind, FindOrNull, get.
  rewrite Hwf.
  destruct (associated_resources_ c !! string_generator (RegistrationMessage.uuid msg))
    eqn:Hl; [reflexivity|].
  cbn. unfold InsertIfNotPresent. cbn. rewrite Hl. reflexivity.
Qed.

Lemma Exn_HandleRegistrationRequest_refused (msg : RegistrationMessage.t) c :
  well_formed (RegistrationMessage.uuid msg) = false ->
  Exn.HandleRegistrationRequest msg c = Exn.Throws c.
Proof.
  intros Hwf. unfold Exn.HandleRegistrationRequest, Exn.bind, Exn.gen.
  now rewrite Hwf.
Qed.

Lemma Exn_HandleIncomingMessage_accepted bm c :
  carried_well_formed bm = true ->
  Exn.HandleIncomingMessage bm c = Exn.Finishes (HandleIncomingMessage bm c).
Proof.
  unfold carried_well_formed, Exn.HandleIncomingMessage, HandleIncomingMessage,
         Exn.bind, bind.
  intros Hwf. apply andb_prop in Hwf as [Hr Hh].
  destruct (register_extn bm) as [reg|].
  - rewrite (Exn_HandleRegistrationRequest_accepted _ _ Hr).
    destruct (HandleRegistrationRequest_returns c reg) as [c1 ->].
    destruct (heartbeat_extn bm) as [hb|]; [|reflexivity].
    now apply Exn_HandleHeartbeat_accepted.
  - cbn. destruct (heartbeat_extn bm) as [hb|]; [|reflexivity].
    now apply Exn_HandleHeartbeat_accepted.
Qed.

(** C2, for identity strings the parser accepts.  For a message with
    both extensions the dispatcher is the registration handler followed
    by the heartbeat handler, the second running on the state the first
    left.  When the parser accepts both identity strings, both handlers
    return; the log gains exactly two lines, one of the registration
    handler and then one of the heartbeat handler; and when both name
    the same identity the heartbeat finds the record and reports as
    last-seen time the stamp the registration has just written. *)
Theorem accepted_dispatch_registration_before_heartbeat bm reg hb c :
  register_extn bm = Some reg ->
  heartbeat_extn bm = Some hb ->
  well_formed (RegistrationMessage.uuid reg) = true ->
  well_formed (HeartbeatMessage.uuid hb) = true ->
  Exn.HandleIncomingMessage bm c =
    Exn.bind (Exn.HandleRegistrationRequest reg) (fun _ => Exn.HandleHeartbeat hb) c /\
  exists c1 c2 lr lh,
    Exn.HandleRegistrationRequest reg c = Exn.Finishes (Returns tt c1) /\
    Exn.HandleHeartbeat hb c1 = Exn.Finishes (Returns tt c2) /\
    Exn.HandleIncomingMessage bm c = Exn.Finishes (Returns tt c2) /\
    log c1 = log c ++ [lr] /\ registration_line reg lr /\
    log c2 = log c ++ [lr; lh] /\ heartbeat_line hb lh /\
    (string_generator (HeartbeatMessage.uuid hb) =
       string_generator (RegistrationMessage.uuid reg) ->
     lh = (INFO, HeartbeatFrom (HeartbeatMessage.uuid hb) (system_clock (clock_reads c)))).
Proof.
  intros Hr Hh Wr Wh.
  split.
  { unfold Exn.HandleIncomingMessage. now rewrite Hr, Hh. }
  destruct (dispatch_registration_before_heartbeat bm reg hb c Hr Hh)
    as (_ & c1 & c2 & lr & lh & H1 & H2 & H12 & L1 & R1 & L2 & R2 & Hseen).
  exists c1, c2, lr, lh.
  split; [now rewrite (Exn_HandleRegistrationRequest_accepted _ _ Wr), H1|].
  split; [now rewrite (Exn_HandleHeartbeat_accepted _ _ Wh), H2|].
  split; [|done].
  rewrite Exn_HandleIncomingMessage_accepted, H12; [reflexivity|].
  unfold carried_well_formed. now rewrite Hr, Hh, Wr, Wh.
Qed.

(** X2.  Handling a registration either throws on an identity string
    the parser refuses, and then the coordinator is untouched, or
    returns, and then the number of records has grown by exactly one
    when the identity was absent and by none when it was present. *)
Theorem registration_throws_or_grows_by_at_most_one (msg : RegistrationMessage.t) c :
  if well_formed (RegistrationMessage.uuid msg)
  then exists c',
         Exn.HandleRegistrationRequest msg c = Exn.Finishes (Returns tt c') /\
         size (associated_resources_ c') =
           (size (associated_resources_ c) +
            match associated_resources_ c
                    !! string_generator (RegistrationMessage.uuid msg) with
            | Some _ => 0
            | None => 1
            end)%nat
  else Exn.HandleRegistrationRequest msg c = Exn.Throws c.
Proof.
  destruct (well_formed (RegistrationMessage.uuid msg)) eqn:Hwf.
  - rewrite (Exn_HandleRegistrationRequest_accepted _ _ Hwf).
    destruct (associated_resources_ c !! string_generator (RegistrationMessage.uuid msg))
      as [p|] eqn:Hl.
    + rewrite (HandleRegistrationRequest_known _ _ _ Hl).
      eexists; split; [reflexivity|]. cbn.
      rewrite Nat.add_0_r, <- !size_dom. now rewrite dom_alter_L.
    + rewrite (HandleRegistrationRequest_new _ _ Hl).
      eexists; split; [reflexivity|]. cbn.
      rewrite map_size_insert_None by done. lia.
  - now apply Exn_HandleRegistrationRequest_refused.
Qed.

(** X5.  Dispatching a message, whatever it carries and whatever the
    state, either returns or is left by the parser's exception; it never
    aborts, since the [CHECK] on the insertion cannot fail.  It returns
    when the parser accepts every identity string the message carries.
    Either way the exit toggle is unchanged, the adapter has not been
    called, and every stored descriptor is in place. *)
Theorem dispatch_returns_or_throws_quietly bm c :
  exists c',
    (Exn.HandleIncomingMessage bm c = Exn.Finishes (Returns tt c') \/
     Exn.HandleIncomingMessage bm c = Exn.Throws c') /\
    (carried_well_formed bm = true ->
     Exn.HandleIncomingMessage bm c = Exn.Finishes (Returns tt c')) /\
    exit_ c' = exit_ c /\
    m_adapter_ c' = m_adapter_ c /\
    keeps_records c c'.
Proof.
  unfold carried_well_formed, Exn.HandleIncomingMessage, Exn.bind.
  assert (Hq0 : quiet c c) by apply quiet_refl.
  destruct (register_extn bm) as [reg|].
  - destruct (well_formed (RegistrationMessage.uuid reg)) eqn:Wr.
    + rewrite (Exn_HandleRegistrationRequest_accepted _ _ Wr).
      destruct (HandleRegistrationRequest_quiet c reg) as (c1 & -> & Q1).
      destruct (heartbeat_extn bm) as [hb|].
      * destruct (well_formed (HeartbeatMessage.uuid hb)) eqn:Wh.
        -- rewrite (Exn_HandleHeartbeat_accepted _ _ Wh).
           destruct (HandleHeartbeat_quiet c1 hb) as (c2 & -> & Q2).
           destruct (quiet_trans _ _ _ Q1 Q2) as (K & X & A).
           exists c2. split; [now left|]. done.
        -- rewrite (Exn_HandleHeartbeat_refused _ _ Wh).
           destruct Q1 as (K & X & A).
           exists c1. split; [now right|]. split; [discriminate|]. done.
      * destruct Q1 as (K & X & A).
        exists c1. split; [now left|]. done.
    + rewrite (Exn_HandleRegistrationRequest_refused _ _ Wr).
      destruct Hq0 as (K & X & A).
      exists c. split; [now right|]. split; [discriminate|]. done.
  - cbn. destruct (heartbeat_extn bm) as [hb|].
    + destruct (well_formed (HeartbeatMessage.uuid hb)) eqn:Wh.
      * rewrite (Exn_HandleHeartbeat_accepted _ _ Wh).
        destruct (HandleHeartbeat_quiet c hb) as (c2 & -> & K & X & A).
        exists c2. split; [now left|]. done.
      * rewrite (Exn_HandleHeartbeat_refused _ _ Wh).
        destruct Hq0 as (K & X & A).
        exists c. split; [now right|]. split; [discriminate|]. done.
    + destruct Hq0 as (K & X & A).
      exists c. split; [now left|]. done.
Qed.

(** X6.  Dispatching a message whose identity strings the parser
    accepts writes exactly one log line for each of the two extensions
    it carries, at severity [INFO] or [WARNING], and reads the clock at
    most once for each; when a registration is carried the clock is read
    at least once. *)
Theorem accepted_dispatch_log_and_clock_accounting bm c :
  carried_well_formed bm = true ->
  exists c' added,
    Exn.HandleIncomingMessage bm c = Exn.Finishes (Returns tt c') /\
    log c' = log c ++ added /\
    length added = payloads bm /\
    Forall (fun l => l.1 = INFO \/ l.1 = WARNING) added /\
    (clock_reads c <= clock_reads c' <= clock_reads c + payloads bm)%nat /\
    (is_Some (register_extn bm) -> (clock_reads c < clock_reads c')%nat).
Proof.
  intros Hwf. rewrite (Exn_HandleIncomingMessage_accepted _ _ Hwf).
  destruct (HandleIncomingMessage_log_frame bm c (log c))
    as (c' & added & -> & Hlog & Hlen & Hsev & Hclock & Hreg & _).
  exists c', added. done.
Qed.

(** X16.  The dispatcher does not undo a registration when the heartbeat
    that comes with it is refused: with an identity string the parser
    accepts in the registration and one it refuses in the heartbeat, the
    registration is handled, and the exception leaves the dispatcher
    with the coordinator as the registration handler left it. *)
Theorem refused_heartbeat_keeps_registration bm reg hb c :
  register_extn bm = Some reg ->
  heartbeat_extn bm = Some hb ->
  well_formed (RegistrationMessage.uuid reg) = true ->
  well_formed (HeartbeatMessage.uuid hb) = false ->
  exists c1 d,
    HandleRegistrationRequest reg c = Returns tt c1 /\
    Exn.HandleIncomingMessage bm c = Exn.Throws c1 /\
    associated_resources_ c1 !! string_generator (RegistrationMessage.uuid reg)
      = Some (d, system_clock (clock_reads c)).
Proof.
  intros Hr Hh Wr Wh.
  unfold Exn.HandleIncomingMessage, Exn.bind. rewrite Hr, Hh.
  rewrite (Exn_HandleRegistrationRequest_accepted _ _ Wr).
  destruct (associated_resources_ c !! string_generator (RegistrationMessage.uuid reg))
    as [[d t]|] eqn:Hl.
  - rewrite (HandleRegistrationRequest_known _ _ _ Hl).
    do 2 eexists. split; [reflexivity|].
    split; [now apply Exn_HandleHeartbeat_refused|].
    cbn. now rewrite lookup_alter_eq, Hl.
  - rewrite (HandleRegistrationRequest_new _ _ Hl).
    do 2 eexists. split; [reflexivity|].
    split; [now apply Exn_HandleHeartbeat_refused|].
    cbn. apply lookup_insert_eq.
Qed.

End ExnHandlers.

Section ExnInstances.
Import Demo.
#[local] Existing Instance Demo.externals.
#[local] Existing Instance Malformed.grammar.

Lemma accepted_dispatch_registration_before_heartbeat_witness :
  register_extn both_kinds = Some register_A_cpu4 /\
  heartbeat_extn both_kinds = Some heartbeat_A /\
  well_formed (RegistrationMessage.uuid register_A_cpu4) = true /\
  well_formed (HeartbeatMessage.uuid heartbeat_A) = true /\
  Exn.HandleIncomingMessage both_kinds initial =
    Exn.bind (Exn.HandleRegistrationRequest register_A_cpu4)
             (fun _ => Exn.HandleHeartbeat heartbeat_A) initial /\
  exists c1 c2 lr lh,
    Exn.HandleRegistrationRequest register_A_cpu4 initial = Exn.Finishes (Returns tt c1) /\
    Exn.HandleHeartbeat heartbeat_A c1 = Exn.Finishes (Returns tt c2) /\
    Exn.HandleIncomingMessage both_kinds initial = Exn.Finishes (Returns tt c2) /\
    log c1 = log initial ++ [lr] /\ registration_line register_A_cpu4 lr /\
    log c2 = log initial ++ [lr; lh] /\ heartbeat_line heartbeat_A lh /\
    (string_generator (HeartbeatMessage.uuid heartbeat_A) =
       string_generator (RegistrationMessage.uuid register_A_cpu4) ->
     lh = (INFO, HeartbeatFrom (HeartbeatMessage.uuid heartbeat_A)
                   (system_clock (clock_reads initial)))).
Proof.
  split; [reflexivity|]. split; [reflexivity|].
  split; [reflexivity|]. split; [reflexivity|].
  apply (accepted_dispatch_registration_before_heartbeat both_kinds register_A_cpu4
           heartbeat_A initial); reflexivity.
Defined.

(** C2 as worded covers a message whose registration carries a string
    that is no uuid.  The parser throws in the registration handler and
    the exception leaves the dispatcher: the coordinator is as before,
    A's record and the log included, although the heartbeat of A that
    the message carries would, once handled, have refreshed the record
    and written its line. *)
Lemma refused_registration_leaves_heartbeat_unhandled :
  register_extn Malformed.bad_registration_good_heartbeat
    = Some Malformed.register_malformed /\
  heartbeat_extn Malformed.bad_registration_good_heartbeat = Some heartbeat_A /\
  well_formed (RegistrationMessage.uuid Malformed.register_malformed) = false /\
  Exn.HandleIncomingMessage Malformed.bad_registration_good_heartbeat with_A
    = Exn.Throws with_A /\
  exists c',
    Exn.HandleHeartbeat heartbeat_A with_A = Exn.Finishes (Returns tt c') /\
    log c' = log with_A ++ [(INFO, HeartbeatFrom uuid_A 100)] /\
    log c' <> log with_A.
Proof.
  split; [reflexivity|]. split; [reflexivity|]. split; [reflexivity|].
  split; [reflexivity|].
  eexists. split; [reflexivity|]. split; [reflexivity|].
  cbn. discriminate.
Qed.

Lemma accepted_dispatch_log_and_clock_accounting_witness :
  carried_well_formed both_kinds = true /\
  exists c' added,
    Exn.HandleIncomingMessage both_kinds with_A = Exn.Finishes (Returns tt c') /\
    log c' = log with_A ++ added /\
    length added = payloads both_kinds /\
    Forall (fun l => l.1 = INFO \/ l.1 = WARNING) added /\
    (clock_reads with_A <= clock_reads c' <= clock_reads with_A + payloads both_kinds)%nat /\
    (is_Some (register_extn both_kinds) -> (clock_reads with_A < clock_reads c')%nat).
Proof.
  split; [reflexivity|].
  apply (accepted_dispatch_log_and_clock_accounting both_kinds with_A).
  reflexivity.
Defined.

Lemma refused_heartbeat_keeps_registration_witness :
  register_extn Malformed.good_registration_bad_heartbeat = Some register_A_cpu4 /\
  heartbeat_extn Malformed.good_registration_bad_heartbeat
    = Some Malformed.heartbeat_malformed /\
  well_formed (RegistrationMessage.uuid register_A_cpu4) = true /\
  well_formed (HeartbeatMessage.uuid Malformed.heartbeat_malformed) = false /\
  exists c1 d,
    HandleRegistrationRequest register_A_cpu4 initial = Returns tt c1 /\
    Exn.HandleIncomingMessage Malformed.good_registration_bad_heartbeat initial
      = Exn.Throws c1 /\
    associated_resources_ c1 !! string_generator (RegistrationMessage.uuid register_A_cpu4)
      = Some (d, system_clock (clock_reads initial)).
Proof.
  split; [reflexivity|]. split; [reflexivity|].
  split; [reflexivity|]. split; [reflexivity|].
  apply (refused_heartbeat_keeps_registration
           Malformed.good_registration_bad_heartbeat register_A_cpu4
           Malformed.heartbeat_malformed initial); reflexivity.
Defined.

End ExnInstances.
